(** * IRR, the Incident Readiness & Response Evaluator: scoring and aggregation

    A shallow embedding of the scoring core of [irr.py]: the log, playbook,
    policy/tool and scenario scorers, and the assessment that aggregates them.
    The modules of the program are Python objects that share one environment
    and read each other's results; here they are one [Session] record that is
    passed explicitly, and every method is a function of it.  Terminal output
    is left out; what the operator types is an argument of the method that
    prompts for it.  The built-ins of Python that the program applies to
    strings ([str.lower], [str.strip], [int]) are parameters of the embedding. *)

From Stdlib Require Import QArith ZArith Bool String List Ascii DecimalString.
From Stdlib Require Import Lqa Lia PrimFloat Uint63.
Import ListNotations.

Set Warnings "-inexact-float".
Open Scope string_scope.

(** * Numbers

    The scores are Python floats, written as decimal literals and combined with
    [+ - * /] and comparisons.  The scorers are embedded once, over the
    arithmetic they use, and read at two carriers: the rationals, where a
    literal is the decimal it spells, and binary64, which is what CPython
    computes with. *)

Class Number (R : Type) : Type := {
  num_lit : Q -> R;            (* a decimal literal such as [0.85] *)
  num_of_int : Z -> R;         (* the conversion of an [int] operand *)
  num_add : R -> R -> R;
  num_sub : R -> R -> R;
  num_mul : R -> R -> R;
  num_div : R -> R -> R;
  num_ltb : R -> R -> bool;
  num_leb : R -> R -> bool
}.

Arguments num_lit {R _} _%_Q.
Arguments num_of_int {R _} _%_Z.

Declare Scope num_scope.
Delimit Scope num_scope with num.
Notation "x + y" := (num_add x y) : num_scope.
Notation "x - y" := (num_sub x y) : num_scope.
Notation "x * y" := (num_mul x y) : num_scope.
Notation "x / y" := (num_div x y) : num_scope.
Notation "x <? y" := (num_ltb x y) : num_scope.
Notation "x <=? y" := (num_leb x y) : num_scope.
Notation "x >=? y" := (num_leb y x) (at level 70) : num_scope.
Notation "x >? y" := (num_ltb y x) (at level 70) : num_scope.

Definition Qltb (x y : Q) : bool :=
  match (x ?= y)%Q with Lt => true | _ => false end.

#[export] Instance Q_Number : Number Q := {
  num_lit q := q;
  num_of_int z := inject_Z z;
  num_add := Qplus;
  num_sub := Qminus;
  num_mul := Qmult;
  num_div := Qdiv;
  num_ltb := Qltb;
  num_leb := Qle_bool
}.

(** [float(z)]: exact below [2^53], rounded to nearest above. *)
Definition float_of_Z (z : Z) : float :=
  if (z <? 0)%Z
  then PrimFloat.opp (PrimFloat.of_uint63 (Uint63.of_Z (- z)))
  else PrimFloat.of_uint63 (Uint63.of_Z z).

(** A decimal literal denotes the double nearest to it; dividing its numerator
    by its power of ten, both exact, rounds to the same double. *)
Definition float_of_decimal (q : Q) : float :=
  PrimFloat.div (float_of_Z (Qnum q)) (float_of_Z (Zpos (Qden q))).

#[export] Instance binary64_Number : Number float := {
  num_lit := float_of_decimal;
  num_of_int := float_of_Z;
  num_add := PrimFloat.add;
  num_sub := PrimFloat.sub;
  num_mul := PrimFloat.mul;
  num_div := PrimFloat.div;
  num_ltb := PrimFloat.ltb;
  num_leb := PrimFloat.leb
}.

(** * Strings

    A Python [str] is read as the bytes of its UTF-8 encoding: equality,
    concatenation, the substring test and the split at a comma give the same
    on the bytes as on the code points. *)

(** The built-ins of Python that the program applies to names and to what the
    operator types: [s.lower()], [s.strip()] and [int(s)], which is [None]
    where [int] raises [ValueError].  They are code of the language, defined
    on all of Unicode, and no code of the program: the embedding takes them as
    parameters, and a statement that needs a fact about them has it as a
    hypothesis. *)
Class Builtins : Type := {
  lower : string -> string;
  strip : string -> string;
  int_of_str : string -> option Z
}.

(** ** The built-ins on ASCII text

    An instance that computes, for the examples.  It is what Python does on
    strings of ASCII characters: [lower] maps the letters A to Z, [strip]
    removes the ASCII whitespace, and [int] reads an optional sign and decimal
    digits, single underscores between digits allowed.  On other strings
    Python differs, and this instance is not used to speak about them. *)
Definition lower_ascii (c : ascii) : ascii :=
  let n := nat_of_ascii c in
  if (65 <=? n)%nat && (n <=? 90)%nat then ascii_of_nat (n + 32) else c.

Fixpoint ascii_lower (s : string) : string :=
  match s with
  | EmptyString => EmptyString
  | String c s' => String (lower_ascii c) (ascii_lower s')
  end.

(** The ASCII whitespace: tab, line feed, vertical tab, form feed, carriage
    return, the four separators 28 to 31 and the space. *)
Definition is_space (c : ascii) : bool :=
  let n := nat_of_ascii c in
  ((9 <=? n)%nat && (n <=? 13)%nat) || ((28 <=? n)%nat && (n <=? 32)%nat).

Fixpoint lstrip (s : string) : string :=
  match s with
  | EmptyString => EmptyString
  | String c s' => if is_space c then lstrip s' else s
  end.

Fixpoint rstrip (s : string) : string :=
  match s with
  | EmptyString => EmptyString
  | String c s' =>
      match rstrip s' with
      | EmptyString => if is_space c then EmptyString else String c EmptyString
      | r => String c r
      end
  end.

Definition ascii_strip (s : string) : string := rstrip (lstrip s).

(** The digits of a numeral, read from the left: [seen] says whether the
    character before was a digit, as an underscore needs and the end does. *)
Fixpoint digits (s : string) (seen : bool) (value : Z) : option Z :=
  match s with
  | EmptyString => if seen then Some value else None
  | String c s' =>
      let n := nat_of_ascii c in
      if (48 <=? n)%nat && (n <=? 57)%nat
      then digits s' true (10 * value + Z.of_nat (n - 48))%Z
      else if Ascii.eqb c "_" && seen then digits s' false value
      else None
  end.

Definition ascii_int (s : string) : option Z :=
  match ascii_strip s with
  | String "+" s' => digits s' false 0
  | String "-" s' => option_map Z.opp (digits s' false 0)
  | s' => digits s' false 0
  end.

Definition ascii_builtins : Builtins :=
  {| lower := ascii_lower; strip := ascii_strip; int_of_str := ascii_int |}.

(** [sub in s] on strings: [sub] occurs in [s] as a substring. *)
Fixpoint str_in (sub s : string) : bool :=
  String.prefix sub s ||
  match s with
  | EmptyString => false
  | String _ s' => str_in sub s'
  end.

(** [str(n)] for an [int]. *)
Definition str_of_int (n : Z) : string := NilZero.string_of_int (Z.to_int n).

(** [any(f(x) for x in l)]. *)
Definition any {A : Type} (f : A -> bool) (l : list A) : bool := existsb f l.

(** [l.append(x)]. *)
Definition append {A : Type} (l : list A) (x : A) : list A := (l ++ [x])%list.

(** * Data models *)

(** The enumeration [ReadinessLevel] and the [value] of each member. *)
Module ReadinessLevel.
Inductive t : Set := CRITICAL | LOW | MODERATE | HIGH | EXCELLENT.

Definition value (l : t) : string :=
  match l with
  | CRITICAL => "Critical"
  | LOW => "Low"
  | MODERATE => "Moderate"
  | HIGH => "High"
  | EXCELLENT => "Excellent"
  end.
End ReadinessLevel.

(** The dataclass [EnvironmentProfile]; [timestamp] is the clock reading taken
    when the profile is built. *)
Module EnvironmentProfile.
Record t : Type := mk {
  org_name : string;
  platforms : list string;
  endpoints_count : Z;
  network_segments : list string;
  security_tools : list string;
  log_sources : list string;
  retention_days : Z;
  timestamp : string
}.
End EnvironmentProfile.

(** The dataclass [LogAnalysisResult]. *)
Module LogAnalysisResult.
Record t {R : Type} : Type := mk {
  source_name : string;
  available : bool;
  retention_compliance : bool;
  timestamp_consistency : R;
  volume_score : R;
  completeness_score : R;
  issues : list string;
  recommendations : list string
}.
Arguments t : clear implicits.
End LogAnalysisResult.

(** The dataclass [PlaybookAnalysisResult]. *)
Module PlaybookAnalysisResult.
Record t {R : Type} : Type := mk {
  playbook_name : string;
  clarity_score : R;
  feasibility_score : R;
  completeness_score : R;
  ambiguous_steps : list string;
  missing_elements : list string;
  unrealistic_assumptions : list string;
  recommendations : list string
}.
Arguments t : clear implicits.
End PlaybookAnalysisResult.

(** The dataclass [ReadinessAssessment]. *)
Module ReadinessAssessment.
Record t {R : Type} : Type := mk {
  overall_score : R;
  readiness_level : string;
  evidence_availability : R;
  timeline_reconstruction : R;
  playbook_effectiveness : R;
  policy_alignment : R;
  critical_gaps : list string;
  high_priority_gaps : list string;
  medium_priority_gaps : list string;
  recommendations : list string;
  timestamp : string
}.
Arguments t : clear implicits.
End ReadinessAssessment.

(** A scenario definition, the dict of [run_scenario_testing]. *)
Module Scenario.
Record t : Type := mk {
  name : string;
  description : string;
  required_logs : list string;
  required_playbook : string;
  complexity : string
}.
End Scenario.

(** The dict that [_test_scenario] returns. *)
Module ScenarioResult.
Record t {R : Type} : Type := mk {
  name : string;
  description : string;
  readiness_score : R;
  log_availability : R;
  playbook_match : bool;
  timeline_feasibility : R;
  gaps : list string;
  strengths : list string
}.
Arguments t : clear implicits.
End ScenarioResult.

(** The objects of one run of the application and their attributes:
    [EnvironmentModule.profile], [LogAnalysisModule.results],
    [PlaybookModule.results], the four attributes of [PolicyToolModule],
    [ScenarioModule.scenarios] and [AssessmentModule.assessment]. *)
Record Session {R : Type} : Type := mkSession {
  profile : option EnvironmentProfile.t;
  log_results : list (LogAnalysisResult.t R);
  playbook_results : list (PlaybookAnalysisResult.t R);
  policy_score : R;
  tool_score : R;
  bottlenecks : list string;
  policy_recommendations : list string;
  scenarios : list (ScenarioResult.t R);
  assessment : option (ReadinessAssessment.t R)
}.
Arguments Session : clear implicits.

Definition set_profile {R} (p : option EnvironmentProfile.t) (s : Session R) : Session R :=
  mkSession R p (log_results s) (playbook_results s) (policy_score s) (tool_score s)
            (bottlenecks s) (policy_recommendations s) (scenarios s) (assessment s).

Definition set_log_results {R} (l : list (LogAnalysisResult.t R)) (s : Session R) : Session R :=
  mkSession R (profile s) l (playbook_results s) (policy_score s) (tool_score s)
            (bottlenecks s) (policy_recommendations s) (scenarios s) (assessment s).

Definition set_playbook_results {R} (l : list (PlaybookAnalysisResult.t R)) (s : Session R)
  : Session R :=
  mkSession R (profile s) (log_results s) l (policy_score s) (tool_score s)
            (bottlenecks s) (policy_recommendations s) (scenarios s) (assessment s).

Definition set_policy_score {R} (x : R) (s : Session R) : Session R :=
  mkSession R (profile s) (log_results s) (playbook_results s) x (tool_score s)
            (bottlenecks s) (policy_recommendations s) (scenarios s) (assessment s).

Definition set_tool_score {R} (x : R) (s : Session R) : Session R :=
  mkSession R (profile s) (log_results s) (playbook_results s) (policy_score s) x
            (bottlenecks s) (policy_recommendations s) (scenarios s) (assessment s).

Definition set_bottlenecks {R} (l : list string) (s : Session R) : Session R :=
  mkSession R (profile s) (log_results s) (playbook_results s) (policy_score s) (tool_score s)
            l (policy_recommendations s) (scenarios s) (assessment s).

Definition set_policy_recommendations {R} (l : list string) (s : Session R) : Session R :=
  mkSession R (profile s) (log_results s) (playbook_results s) (policy_score s) (tool_score s)
            (bottlenecks s) l (scenarios s) (assessment s).

Definition set_scenarios {R} (l : list (ScenarioResult.t R)) (s : Session R) : Session R :=
  mkSession R (profile s) (log_results s) (playbook_results s) (policy_score s) (tool_score s)
            (bottlenecks s) (policy_recommendations s) l (assessment s).

Definition set_assessment {R} (a : option (ReadinessAssessment.t R)) (s : Session R)
  : Session R :=
  mkSession R (profile s) (log_results s) (playbook_results s) (policy_score s) (tool_score s)
            (bottlenecks s) (policy_recommendations s) (scenarios s) a.

Section Scoring.

Context {R : Type} {N : Number R} {B : Builtins}.
Local Open Scope num_scope.

(** [sum(xs)]: the additions run left to right from the integer [0].  (In
    binary64, CPython 3.12 and later also carries a compensation for the
    rounding of these additions; it vanishes where they are exact.) *)
Definition sum (xs : list R) : R := fold_left num_add xs (num_of_int 0).

(** [len(xs)], as the operand of a division. *)
Definition len {A : Type} (xs : list A) : R := num_of_int (Z.of_nat (length xs)).

(** [max(a, b)]: the first argument unless the second is greater. *)
Definition max (a b : R) : R := if b >? a then b else a.

(** The state of the application when it starts. *)
Definition initial_session : Session R :=
  mkSession R None [] [] (num_lit 0.0) (num_lit 0.0) [] [] [] None.

(** ** Module: log analysis *)

(** [LogAnalysisModule._analyze_log_source].  [environment] is
    [self.environment.profile]: the method is called by [analyze_logs] alone,
    past its check that a profile was collected. *)
Definition _analyze_log_source (environment : EnvironmentProfile.t) (source : string)
  : LogAnalysisResult.t R :=
  let issues : list string := [] in
  let recommendations : list string := [] in
  let available := true in
  let retention_compliance := (EnvironmentProfile.retention_days environment >=? 90)%Z in
  let '(issues, recommendations) :=
    if negb retention_compliance
    then (append issues ("Retention period ("
                       ++ str_of_int (EnvironmentProfile.retention_days environment)
                       ++ " days) below recommended 90 days"),
          append recommendations "Increase log retention to at least 90 days")
    else (issues, recommendations) in
  let timestamp_consistency :=
    if str_in "Windows" source || str_in "Syslog" source
    then num_lit 0.85 else num_lit 0.75 in
  let '(issues, recommendations) :=
    if timestamp_consistency <? num_lit 0.9
    then (append issues "Potential timestamp synchronization issues detected",
          append recommendations "Implement NTP synchronization across all log sources")
    else (issues, recommendations) in
  let volume_score := num_lit 0.80 in
  let completeness_score := num_lit 0.75 in
  let '(completeness_score, issues, recommendations) :=
    if str_in "Application" source || str_in "Custom" source
    then (num_lit 0.65,
          append issues "Application logs may lack critical security events",
          append recommendations "Enhance application logging to include authentication and authorization events")
    else (completeness_score, issues, recommendations) in
  LogAnalysisResult.mk R source available retention_compliance timestamp_consistency
    volume_score completeness_score issues recommendations.

(** [LogAnalysisModule.analyze_logs]: without a profile nothing changes;
    otherwise the results are replaced by one result per log source. *)
Definition analyze_logs (self : Session R) : Session R :=
  match profile self with
  | None => self
  | Some p =>
      set_log_results
        (map (_analyze_log_source p) (EnvironmentProfile.log_sources p)) self
  end.

(** [LogAnalysisModule.get_evidence_availability_score]. *)
Definition get_evidence_availability_score (self : Session R) : R :=
  match log_results self with
  | [] => num_lit 0.0
  | _ =>
      let scores :=
        map (fun r => (LogAnalysisResult.timestamp_consistency r
                       + LogAnalysisResult.volume_score r
                       + LogAnalysisResult.completeness_score r) / num_of_int 3)
            (log_results self) in
      sum scores / len scores
  end.

(** ** Module: playbook evaluation *)

Definition playbook_types : list string :=
  [ "Malware Infection Response";
    "Phishing Incident Response";
    "Data Breach Response";
    "Ransomware Response";
    "Insider Threat Response";
    "DDoS Attack Response" ].

(** [PlaybookModule._evaluate_playbook]. *)
Definition _evaluate_playbook (playbook_name : string) : PlaybookAnalysisResult.t R :=
  let ambiguous_steps : list string := [] in
  let missing_elements : list string := [] in
  let unrealistic_assumptions : list string := [] in
  let recommendations : list string := [] in
  let clarity_score := num_lit 0.75 in
  let feasibility_score := num_lit 0.70 in
  let completeness_score := num_lit 0.72 in
  let '(ambiguous_steps, missing_elements, recommendations,
        clarity_score, completeness_score) :=
    if str_in "Malware" playbook_name || str_in "Ransomware" playbook_name
    then (append ambiguous_steps
            "Step 5: 'Contain the threat' lacks specific isolation procedures",
          append missing_elements "No guidance on encrypted backup restoration",
          append recommendations
            "Add detailed network isolation procedures with specific commands",
          clarity_score - num_lit 0.05,
          completeness_score - num_lit 0.08)
    else (ambiguous_steps, missing_elements, recommendations,
          clarity_score, completeness_score) in
  let '(ambiguous_steps, missing_elements, recommendations, clarity_score) :=
    if str_in "Phishing" playbook_name
    then (append ambiguous_steps
            "Step 3: 'Analyze email headers' assumes technical expertise",
          append missing_elements "Missing user communication templates",
          append recommendations "Include step-by-step header analysis guide with examples",
          clarity_score - num_lit 0.10)
    else (ambiguous_steps, missing_elements, recommendations, clarity_score) in
  let '(unrealistic_assumptions, missing_elements, recommendations,
        feasibility_score, completeness_score) :=
    if str_in "Data Breach" playbook_name
    then (append unrealistic_assumptions "Assumes full network visibility and logging",
          append missing_elements "Legal and regulatory notification procedures undefined",
          append recommendations "Develop breach notification checklist with timelines",
          feasibility_score - num_lit 0.15,
          completeness_score - num_lit 0.12)
    else (unrealistic_assumptions, missing_elements, recommendations,
          feasibility_score, completeness_score) in
  let missing_elements :=
    match missing_elements with
    | [] => append missing_elements "Documentation requirements not specified"
    | _ => missing_elements
    end in
  let recommendations :=
    append recommendations "Conduct tabletop exercise to validate procedures" in
  let recommendations :=
    append recommendations "Define clear roles and escalation criteria" in
  PlaybookAnalysisResult.mk R playbook_name
    (max (num_lit 0.0) clarity_score)
    (max (num_lit 0.0) feasibility_score)
    (max (num_lit 0.0) completeness_score)
    ambiguous_steps missing_elements unrealistic_assumptions recommendations.

(** [PlaybookModule.evaluate_playbooks]: [standard] is the answer to "Evaluate
    standard playbooks" and [custom] the names typed before [done]; the results
    are appended to those of earlier calls. *)
Definition evaluate_playbooks (standard : bool) (custom : list string) (self : Session R)
  : Session R :=
  let results := playbook_results self in
  let results :=
    if standard then (results ++ map _evaluate_playbook playbook_types)%list else results in
  let results := (results ++ map _evaluate_playbook custom)%list in
  set_playbook_results results self.

(** [PlaybookModule.get_playbook_effectiveness_score]. *)
Definition get_playbook_effectiveness_score (self : Session R) : R :=
  match playbook_results self with
  | [] => num_lit 0.0
  | _ =>
      let scores :=
        map (fun r => (PlaybookAnalysisResult.clarity_score r
                       + PlaybookAnalysisResult.feasibility_score r
                       + PlaybookAnalysisResult.completeness_score r) / num_of_int 3)
            (playbook_results self) in
      sum scores / len scores
  end.

(** ** Module: policy and tool readiness *)

(** The operator's replies about one policy: it does not exist, or it exists
    and is or is not documented and tested (asked only when it exists). *)
Inductive PolicyAnswer : Set :=
| policy_missing
| policy_exists (documented tested : bool).

Definition policies : list (string * string) :=
  [ ("Incident Response Policy", "Formal documented procedures for incident handling");
    ("Escalation Policy", "Clear escalation paths and approval thresholds");
    ("Communication Policy", "Internal and external communication protocols");
    ("Data Handling Policy", "Evidence collection and preservation guidelines");
    ("Access Control Policy", "Emergency access and privilege escalation procedures") ].

(** The loop of [_evaluate_policies]; [answers i] is what the operator replies
    in its [i]-th round. *)
Fixpoint policies_loop (answers : nat -> PolicyAnswer) (i : nat)
    (todo : list (string * string)) (policy_scores : list R)
    (recommendations : list string) : list R * list string :=
  match todo with
  | [] => (policy_scores, recommendations)
  | (policy_name, description) :: todo' =>
      let '(policy_scores, recommendations) :=
        match answers i with
        | policy_exists documented tested =>
            let score :=
              num_lit 0.5
              + (if documented then num_lit 0.25 else num_of_int 0)
              + (if tested then num_lit 0.25 else num_of_int 0) in
            let policy_scores := append policy_scores score in
            let recommendations :=
              if negb tested
              then append recommendations ("Conduct tabletop exercise for " ++ policy_name)
              else recommendations in
            (policy_scores, recommendations)
        | policy_missing =>
            (append policy_scores (num_lit 0.0),
             append recommendations ("Develop and document " ++ policy_name))
        end in
      policies_loop answers (S i) todo' policy_scores recommendations
  end.

(** [PolicyToolModule._evaluate_policies]. *)
Definition _evaluate_policies (answers : nat -> PolicyAnswer) (self : Session R)
  : Session R :=
  let '(policy_scores, recommendations) :=
    policies_loop answers 0 policies [] (policy_recommendations self) in
  let self := set_policy_recommendations recommendations self in
  set_policy_score
    (match policy_scores with
     | [] => num_lit 0.0
     | _ => sum policy_scores / len policy_scores
     end) self.

(** The loop of [_evaluate_tools]; [answers i] is the pair (operational,
    integrated) replied for the [i]-th tool. *)
Fixpoint tools_loop (answers : nat -> bool * bool) (i : nat) (tools : list string)
    (tool_scores : list R) (recommendations : list string) : list R * list string :=
  match tools with
  | [] => (tool_scores, recommendations)
  | tool :: tools' =>
      let '(operational, integrated) := answers i in
      let score := if operational then num_lit 0.5 else num_lit 0.0 in
      let score := score + (if integrated then num_lit 0.3 else num_lit 0.0) in
      let score := score + num_lit 0.2 in
      let tool_scores := append tool_scores score in
      let recommendations :=
        if negb integrated
        then append recommendations
               ("Integrate " ++ tool ++ " into centralized incident response platform")
        else recommendations in
      tools_loop answers (S i) tools' tool_scores recommendations
  end.

(** [PolicyToolModule._evaluate_tools]. *)
Definition _evaluate_tools (answers : nat -> bool * bool) (self : Session R) : Session R :=
  match profile self with
  | None => set_tool_score (num_lit 0.0) self
  | Some p =>
      let '(tool_scores, recommendations) :=
        tools_loop answers 0 (EnvironmentProfile.security_tools p) []
                   (policy_recommendations self) in
      let self := set_policy_recommendations recommendations self in
      set_tool_score
        (match tool_scores with
         | [] => num_lit 0.0
         | _ => sum tool_scores / len tool_scores
         end) self
  end.

Definition potential_bottlenecks : list (string * string) :=
  [ ("Manual log correlation", "Requires manual analysis across multiple systems");
    ("Approval delays", "Critical actions require management approval");
    ("Tool fragmentation", "No unified incident management platform");
    ("Expertise gaps", "Limited 24/7 coverage or specialized skills");
    ("Communication delays", "Stakeholder notification requires manual coordination") ].

(** The loop of [_identify_bottlenecks]; [answers i] says whether the operator
    confirms the [i]-th bottleneck. *)
Fixpoint bottlenecks_loop (answers : nat -> bool) (i : nat) (todo : list (string * string))
    (found : list string) (recommendations : list string) : list string * list string :=
  match todo with
  | [] => (found, recommendations)
  | (bottleneck, description) :: todo' =>
      let '(found, recommendations) :=
        if answers i
        then
          let found := append found (bottleneck ++ ": " ++ description) in
          let recommendations :=
            if str_in "Manual log" bottleneck
            then append recommendations
                   "Implement SOAR platform for automated log correlation"
            else if str_in "Approval" bottleneck
            then append recommendations
                   "Pre-authorize common response actions for on-call personnel"
            else if str_in "Tool fragmentation" bottleneck
            then append recommendations "Deploy unified SIEM/SOAR platform"
            else if str_in "Expertise" bottleneck
            then append recommendations
                   "Establish 24/7 SOC coverage or engage MDR provider"
            else if str_in "Communication" bottleneck
            then append recommendations
                   "Implement automated stakeholder notification system"
            else recommendations in
          (found, recommendations)
        else (found, recommendations) in
      bottlenecks_loop answers (S i) todo' found recommendations
  end.

(** [PolicyToolModule._identify_bottlenecks]. *)
Definition _identify_bottlenecks (answers : nat -> bool) (self : Session R) : Session R :=
  let '(found, recommendations) :=
    bottlenecks_loop answers 0 potential_bottlenecks (bottlenecks self)
                     (policy_recommendations self) in
  set_bottlenecks found (set_policy_recommendations recommendations self).

(** [PolicyToolModule.evaluate_readiness]. *)
Definition evaluate_readiness (policy_answers : nat -> PolicyAnswer)
    (tool_answers : nat -> bool * bool) (bottleneck_answers : nat -> bool)
    (self : Session R) : Session R :=
  let self := _evaluate_policies policy_answers self in
  let self := _evaluate_tools tool_answers self in
  _identify_bottlenecks bottleneck_answers self.

(** [PolicyToolModule.get_policy_alignment_score]. *)
Definition get_policy_alignment_score (self : Session R) : R :=
  (policy_score self + tool_score self) / num_of_int 2.

(** ** Module: scenario testing *)

Definition predefined_scenarios : list Scenario.t :=
  [ Scenario.mk "Ransomware Attack"
      "Multiple endpoints encrypted, ransom note detected"
      ["Windows Event Logs"; "EDR"; "Network Traffic"]
      "Ransomware Response" "high";
    Scenario.mk "Credential Compromise"
      "Suspicious login from unusual location detected"
      ["Authentication Logs"; "VPN Logs"]
      "Insider Threat Response" "medium";
    Scenario.mk "Data Exfiltration"
      "Large outbound data transfer to unknown destination"
      ["Network Traffic"; "Firewall Logs"; "DLP"]
      "Data Breach Response" "high" ].

(** [ScenarioModule._test_scenario]. *)
Definition _test_scenario (self : Session R) (scenario : Scenario.t) : ScenarioResult.t R :=
  let gaps : list string := [] in
  let strengths : list string := [] in
  let available_logs :=
    map LogAnalysisResult.source_name
        (filter LogAnalysisResult.available (log_results self)) in
  let required_logs := Scenario.required_logs scenario in
  let log_coverage :=
    Z.of_nat (length (filter (fun log =>
                any (fun al => str_in (lower log) (lower al)) available_logs)
              required_logs)) in
  let log_availability :=
    match required_logs with
    | [] => num_lit 0.0
    | _ => num_of_int log_coverage / len required_logs
    end in
  let '(gaps, strengths) :=
    if log_availability <? num_lit 1.0
    then
      let missing_logs :=
        filter (fun log =>
                  negb (any (fun al => str_in (lower log) (lower al)) available_logs))
               required_logs in
      (append gaps ("Missing critical logs: " ++ String.concat ", " missing_logs),
       strengths)
    else (gaps, append strengths "All required log sources available") in
  let playbook_names :=
    map PlaybookAnalysisResult.playbook_name (playbook_results self) in
  let playbook_match :=
    any (fun pb => str_in (lower (Scenario.required_playbook scenario)) (lower pb))
        playbook_names in
  let '(gaps, strengths) :=
    if negb playbook_match
    then (append gaps ("No playbook for " ++ Scenario.required_playbook scenario),
          strengths)
    else (gaps,
          append strengths
            ("Relevant playbook exists: " ++ Scenario.required_playbook scenario)) in
  let timeline_feasibility :=
    if (log_availability >=? num_lit 0.8) && playbook_match then num_lit 0.85
    else if log_availability >=? num_lit 0.6 then num_lit 0.65
    else num_lit 0.40 in
  let readiness_score :=
    log_availability * num_lit 0.4
    + (if playbook_match then num_lit 1.0 else num_lit 0.0) * num_lit 0.3
    + timeline_feasibility * num_lit 0.3 in
  ScenarioResult.mk R (Scenario.name scenario) (Scenario.description scenario)
    readiness_score log_availability playbook_match timeline_feasibility gaps strengths.

(** [predefined_scenarios[i]] for the indices [0 <= i < len(predefined_scenarios)]. *)
Definition select_scenarios (indices : list Z) : list Scenario.t :=
  flat_map (fun i =>
              if (0 <=? i)%Z && (i <? Z.of_nat (length predefined_scenarios))%Z
              then match nth_error predefined_scenarios (Z.to_nat i) with
                   | Some sc => [sc]
                   | None => []
                   end
              else [])
           indices.

(** [ScenarioModule.run_scenario_testing]: [run] answers "Run scenario
    testing"; [selected] is [None] for [all] and otherwise the typed numbers,
    each less one. *)
Definition run_scenario_testing (run : bool) (selected : option (list Z))
    (self : Session R) : Session R :=
  if negb run then self
  else
    let scenarios_to_test :=
      match selected with
      | None => predefined_scenarios
      | Some indices => select_scenarios indices
      end in
    set_scenarios (scenarios self ++ map (_test_scenario self) scenarios_to_test)%list self.

(** ** Module: assessment summary and recommendations *)

(** [AssessmentModule._calculate_timeline_score]. *)
Definition _calculate_timeline_score (self : Session R) (evidence_score policy_score : R)
  : R :=
  let base_score := evidence_score * num_lit 0.7 + policy_score * num_lit 0.3 in
  match profile self with
  | Some p =>
      if (EnvironmentProfile.retention_days p <? 90)%Z
      then base_score * num_lit 0.85
      else base_score
  | None => base_score
  end.

(** [AssessmentModule._determine_readiness_level]. *)
Definition _determine_readiness_level (score : R) : ReadinessLevel.t :=
  if score >=? num_lit 0.85 then ReadinessLevel.EXCELLENT
  else if score >=? num_lit 0.75 then ReadinessLevel.HIGH
  else if score >=? num_lit 0.60 then ReadinessLevel.MODERATE
  else if score >=? num_lit 0.40 then ReadinessLevel.LOW
  else ReadinessLevel.CRITICAL.

(** [AssessmentModule._prioritize_gaps]: the critical, high and medium lists. *)
Definition _prioritize_gaps (self : Session R)
  : list string * list string * list string :=
  let critical_gaps : list string := [] in
  let high_gaps : list string := [] in
  let medium_gaps : list string := [] in
  let critical_gaps :=
    if get_evidence_availability_score self <? num_lit 0.60
    then append critical_gaps
           "Insufficient log coverage for effective incident investigation"
    else critical_gaps in
  let high_gaps :=
    fold_left (fun high_gaps result =>
                 if negb (LogAnalysisResult.retention_compliance result)
                 then append high_gaps
                        (LogAnalysisResult.source_name result
                           ++ ": Inadequate retention period")
                 else high_gaps)
              (log_results self) high_gaps in
  let critical_gaps :=
    if get_playbook_effectiveness_score self <? num_lit 0.60
    then append critical_gaps "Incident response playbooks lack clarity or completeness"
    else critical_gaps in
  let high_gaps :=
    fold_left (fun high_gaps result =>
                 match PlaybookAnalysisResult.unrealistic_assumptions result with
                 | [] => high_gaps
                 | _ => append high_gaps
                          (PlaybookAnalysisResult.playbook_name result
                             ++ ": Contains unrealistic assumptions")
                 end)
              (playbook_results self) high_gaps in
  let critical_gaps :=
    if policy_score self <? num_lit 0.60
    then append critical_gaps
           "Security policies inadequate for effective incident response"
    else critical_gaps in
  let high_gaps :=
    if tool_score self <? num_lit 0.70
    then append high_gaps "Security tools not fully integrated into response workflow"
    else high_gaps in
  let medium_gaps :=
    fold_left (fun medium_gaps bottleneck => append medium_gaps bottleneck)
              (bottlenecks self) medium_gaps in
  let high_gaps :=
    match scenarios self with
    | [] => high_gaps
    | _ =>
        let avg_scenario_score :=
          sum (map ScenarioResult.readiness_score (scenarios self))
          / len (scenarios self) in
        if avg_scenario_score <? num_lit 0.65
        then append high_gaps "Limited readiness for common incident scenarios"
        else high_gaps
    end in
  (critical_gaps, high_gaps, medium_gaps).

(** [AssessmentModule._generate_recommendations].  The timeline score is read
    from [self.assessment], the assessment stored by an earlier
    [generate_assessment] on this object, and is [0.0] when there is none. *)
Definition _generate_recommendations (self : Session R) : list string :=
  let recommendations : list string := [] in
  let recommendations :=
    if get_evidence_availability_score self <? num_lit 0.75
    then
      let recommendations :=
        append recommendations
          "Implement comprehensive logging across all critical systems" in
      append recommendations "Deploy centralized log management (SIEM) platform"
    else recommendations in
  let recommendations :=
    match profile self with
    | Some p =>
        if (EnvironmentProfile.retention_days p <? 90)%Z
        then append recommendations
               "Extend log retention to minimum 90 days (180 days recommended)"
        else recommendations
    | None => recommendations
    end in
  let recommendations :=
    if get_playbook_effectiveness_score self <? num_lit 0.70
    then
      let recommendations :=
        append recommendations "Conduct comprehensive playbook review and update cycle" in
      append recommendations
        "Schedule quarterly tabletop exercises to validate procedures"
    else recommendations in
  let recommendations :=
    if policy_score self <? num_lit 0.70
    then
      let recommendations :=
        append recommendations "Formalize incident response policies and procedures" in
      append recommendations "Establish clear escalation paths and approval thresholds"
    else recommendations in
  let recommendations :=
    if tool_score self <? num_lit 0.75
    then
      let recommendations :=
        append recommendations
          "Integrate security tools into unified incident response platform" in
      append recommendations "Implement SOAR capabilities for automated response actions"
    else recommendations in
  let timeline_score :=
    match assessment self with
    | Some a => ReadinessAssessment.timeline_reconstruction a
    | None => num_lit 0.0
    end in
  let recommendations :=
    if timeline_score <? num_lit 0.70
    then
      let recommendations :=
        append recommendations "Improve log correlation and timestamp synchronization" in
      append recommendations
        "Deploy network traffic analysis (NTA) for comprehensive visibility"
    else recommendations in
  let recommendations :=
    append recommendations "Establish 24/7 SOC coverage or engage MDR provider" in
  let recommendations :=
    append recommendations "Conduct annual incident response capability assessment" in
  let recommendations :=
    append recommendations "Develop incident response metrics and KPIs" in
  firstn 15 recommendations.

(** [AssessmentModule.generate_assessment]: the assessment, and the session
    with it stored in [self.assessment]; [now] is the reading of the clock that
    stamps it. *)
Definition generate_assessment (now : string) (self : Session R)
  : ReadinessAssessment.t R * Session R :=
  let evidence_score := get_evidence_availability_score self in
  let playbook_score := get_playbook_effectiveness_score self in
  let policy_score := get_policy_alignment_score self in
  let timeline_score := _calculate_timeline_score self evidence_score policy_score in
  let overall_score :=
    evidence_score * num_lit 0.30
    + playbook_score * num_lit 0.25
    + policy_score * num_lit 0.25
    + timeline_score * num_lit 0.20 in
  let readiness_level := _determine_readiness_level overall_score in
  let '(critical_gaps, high_gaps, medium_gaps) := _prioritize_gaps self in
  let recommendations := _generate_recommendations self in
  let a :=
    ReadinessAssessment.mk R overall_score (ReadinessLevel.value readiness_level)
      evidence_score timeline_score playbook_score policy_score
      critical_gaps high_gaps medium_gaps recommendations now in
  (a, set_assessment (Some a) self).

(** [AssessmentModule(...)]: a new assessment module over the same modules;
    it holds no assessment yet. *)
Definition new_AssessmentModule (self : Session R) : Session R :=
  set_assessment None self.

(** [ScenarioModule(...)]: a new scenario module over the same modules. *)
Definition new_ScenarioModule (self : Session R) : Session R :=
  set_scenarios [] self.

(** [EnvironmentModule.collect_environment_data], with the answers already
    read into a profile. *)
Definition collect_environment_data (p : EnvironmentProfile.t) (self : Session R)
  : Session R :=
  set_profile (Some p) self.

(** ** The sessions a run can reach

    One step is one call of a module's entry point, with whatever the operator
    answers. *)
Inductive step : Session R -> Session R -> Prop :=
| step_collect_environment_data p s :
    step s (collect_environment_data p s)
| step_analyze_logs s :
    step s (analyze_logs s)
| step_evaluate_playbooks standard custom s :
    step s (evaluate_playbooks standard custom s)
| step_evaluate_readiness pa ta ba s :
    step s (evaluate_readiness pa ta ba s)
| step_new_ScenarioModule s :
    step s (new_ScenarioModule s)
| step_run_scenario_testing run selected s :
    step s (run_scenario_testing run selected s)
| step_new_AssessmentModule s :
    step s (new_AssessmentModule s)
| step_generate_assessment now s :
    step s (snd (generate_assessment now s)).

Inductive reachable : Session R -> Prop :=
| reachable_initial : reachable initial_session
| reachable_step s s' : reachable s -> step s s' -> reachable s'.

(** ** Calls between two calls of a scorer *)






End Scoring.

(** * Inputs used as examples *)

(** A profile that keeps its logs for [days] days and names one log source. *)
Definition sample_profile (days : Z) (source : string) : EnvironmentProfile.t :=
  EnvironmentProfile.mk "My Organization" ["Windows"; "Linux"] 100 ["DMZ"; "Internal"]
    ["EDR"; "SIEM"; "Firewall"] [source] days "2024-01-01T00:00:00".

(** A run up to the report: a profile with 90 days of retention, the log
    analysis of its Windows source, one playbook, every policy present,
    documented and tested, every tool operational and integrated, no
    bottleneck, and a new assessment module. *)
Definition session_before_report {R : Type} {N : Number R} : Session R :=
  new_AssessmentModule
    (evaluate_readiness (fun _ => policy_exists true true) (fun _ => (true, true))
       (fun _ => false)
       (evaluate_playbooks false ["Ransomware Response"]
          (analyze_logs
             (collect_environment_data (sample_profile 90 "Windows Event Logs")
                initial_session)))).




(** A scenario that requires no log. *)
Definition scenario_without_logs : Scenario.t :=
  Scenario.mk "Tabletop" "No log needed" [] "Ransomware Response" "low".

(** * Predicates of the statements *)

(** A score in [[0, 1]]. *)
Definition unit_interval (x : Q) : Prop := 0 <= x <= 1.

(** The result is one that the log scorer returns. *)
Definition log_scored (r : LogAnalysisResult.t Q) : Prop :=
  exists environment source, r = _analyze_log_source environment source.

(** The result is one that the playbook scorer returns. *)
Definition playbook_scored (r : PlaybookAnalysisResult.t Q) : Prop :=
  exists playbook_name, r = _evaluate_playbook playbook_name.

(** The result is one that the scenario evaluator returns. *)
Definition scenario_scored {B : Builtins} (r : ScenarioResult.t Q) : Prop :=
  exists self scenario, r = _test_scenario self scenario.

Definition log_scores_in_unit (r : LogAnalysisResult.t Q) : Prop :=
  unit_interval (LogAnalysisResult.timestamp_consistency r) /\
  unit_interval (LogAnalysisResult.volume_score r) /\
  unit_interval (LogAnalysisResult.completeness_score r).

Definition playbook_scores_in_unit (r : PlaybookAnalysisResult.t Q) : Prop :=
  unit_interval (PlaybookAnalysisResult.clarity_score r) /\
  unit_interval (PlaybookAnalysisResult.feasibility_score r) /\
  unit_interval (PlaybookAnalysisResult.completeness_score r).

Definition scenario_scores_in_unit (r : ScenarioResult.t Q) : Prop :=
  unit_interval (ScenarioResult.readiness_score r) /\
  unit_interval (ScenarioResult.log_availability r) /\
  unit_interval (ScenarioResult.timeline_feasibility r).

Definition assessment_scores_in_unit (a : ReadinessAssessment.t Q) : Prop :=
  unit_interval (ReadinessAssessment.overall_score a) /\
  unit_interval (ReadinessAssessment.evidence_availability a) /\
  unit_interval (ReadinessAssessment.timeline_reconstruction a) /\
  unit_interval (ReadinessAssessment.playbook_effectiveness a) /\
  unit_interval (ReadinessAssessment.policy_alignment a).

(** The critical gap that [_prioritize_gaps] records for a low evidence score. *)
Definition insufficient_log_coverage : string :=
  "Insufficient log coverage for effective incident investigation".

(** The two recommendations of [_generate_recommendations] for a low timeline
    score. *)
Definition timeline_recommendations : list string :=
  [ "Improve log correlation and timestamp synchronization";
    "Deploy network traffic analysis (NTA) for comprehensive visibility" ].

(** What every session that a run reaches satisfies: the stored results come
    from the scorers, and the stored scores lie in [[0, 1]]. *)
Definition session_invariant {B : Builtins} (s : Session Q) : Prop :=
  Forall log_scored (log_results s) /\
  Forall playbook_scored (playbook_results s) /\
  unit_interval (policy_score s) /\
  unit_interval (tool_score s) /\
  Forall scenario_scored (scenarios s) /\
  (forall a, assessment s = Some a -> assessment_scores_in_unit a).

(** The session after the environment was collected and its logs analysed. *)
Definition session_with_logs {R : Type} {N : Number R} : Session R :=
  analyze_logs
    (collect_environment_data (sample_profile 90 "Windows Event Logs") initial_session).

(** * Operator input *)

(** [s.split(sep)] for a one-character separator: the pieces between the
    separators, empty pieces included; never the empty list. *)
Fixpoint split (sep : ascii) (s : string) : list string :=
  match s with
  | EmptyString => [EmptyString]
  | String c s' =>
      if Ascii.eqb c sep then EmptyString :: split sep s'
      else match split sep s' with
           | piece :: pieces => String c piece :: pieces
           | [] => [String c EmptyString]
           end
  end.

(** [get_input]: [typed] is the line that [input()] returns; [None] stands for
    Python's [None]. *)
Definition get_input {B : Builtins} (typed : string) (default : option string)
  : option string :=
  let value := strip typed in
  match value with
  | EmptyString => default
  | _ => Some value
  end.

(** [get_yes_no]: [None] is the [AttributeError] of [None.lower()]. *)
Definition get_yes_no {B : Builtins} (typed : string) (default : bool) : option bool :=
  match get_input typed (Some (if default then "y" else "n")) with
  | None => None
  | Some value =>
      let response := lower value in
      Some (match response with
            | EmptyString => default
            | _ => existsb (String.eqb response) ["y"; "yes"; "1"; "true"]
            end)
  end.

(** What the operator replies during one action of the application; the
    answers of [collect_environment_data] are the typed lines. *)
Module Operator.
Record t : Type := mk {
  org_name : string;
  platforms : string;
  endpoints_count : string;
  network_segments : string;
  security_tools : string;
  log_sources : string;
  retention_days : string;
  profile_time : string;
  collect_now : bool;
  standard : bool;
  custom : list string;
  policy_answers : nat -> PolicyAnswer;
  tool_answers : nat -> bool * bool;
  bottleneck_answers : nat -> bool;
  run_scenarios : bool;
  selected : option (list Z);
  report_time : string
}.
End Operator.

(** [[x.strip() for x in get_input(prompt, default).split(',')]]. *)
Definition typed_list {B : Builtins} (typed default : string) : option (list string) :=
  match get_input typed (Some default) with
  | None => None
  | Some value => Some (map strip (split "," value))
  end.

(** [int(get_input(prompt, default))]; [None] when an exception ends it. *)
Definition typed_int {B : Builtins} (typed default : string) : option Z :=
  match get_input typed (Some default) with
  | None => None
  | Some value => int_of_str value
  end.

(** The profile that [EnvironmentModule.collect_environment_data] builds from
    the operator's answers; [None] when an exception ends it. *)
Definition typed_profile {B : Builtins} (op : Operator.t) : option EnvironmentProfile.t :=
  match get_input (Operator.org_name op) (Some "My Organization"),
        typed_list (Operator.platforms op) "Windows,Linux",
        typed_int (Operator.endpoints_count op) "100",
        typed_list (Operator.network_segments op) "DMZ,Internal",
        typed_list (Operator.security_tools op) "EDR,SIEM,Firewall",
        typed_list (Operator.log_sources op) "Windows Event Logs,Syslog",
        typed_int (Operator.retention_days op) "90" with
  | Some org_name, Some platforms, Some endpoints_count, Some network_segments,
    Some security_tools, Some log_sources, Some retention_days =>
      Some (EnvironmentProfile.mk org_name platforms endpoints_count
              network_segments security_tools log_sources
              retention_days (Operator.profile_time op))
  | _, _, _, _, _, _, _ => None
  end.

(** The rank of a readiness level, from Critical to Excellent. *)
Definition level_rank (l : ReadinessLevel.t) : nat :=
  match l with
  | ReadinessLevel.CRITICAL => 0
  | ReadinessLevel.LOW => 1
  | ReadinessLevel.MODERATE => 2
  | ReadinessLevel.HIGH => 3
  | ReadinessLevel.EXCELLENT => 4
  end.

(** * The application *)

(** [IRRApplication]: the modules, and whether [self.scenario] holds a scenario
    module yet. *)
Record IRRApplication {R : Type} : Type := mkApp {
  modules : Session R;
  scenario_module : bool
}.
Arguments IRRApplication : clear implicits.

Section Application.

Context {R : Type} {N : Number R} {B : Builtins}.

(** [IRRApplication()]. *)
Definition initial_application : IRRApplication R := mkApp R initial_session false.

(** [self.environment.collect_environment_data()] with typed answers. *)
Definition collect_typed (op : Operator.t) (self : Session R) : option (Session R) :=
  match typed_profile op with
  | None => None
  | Some p => Some (collect_environment_data p self)
  end.

(** The scenario module of the application, created when there is none. *)
Definition ensure_scenario (app : IRRApplication R) : Session R :=
  if scenario_module app then modules app else new_ScenarioModule (modules app).

(** [IRRApplication.run_full_assessment]; [None] when an exception ends it. *)
Definition run_full_assessment (op : Operator.t) (app : IRRApplication R)
  : option (IRRApplication R) :=
  match (match profile (modules app) with
         | None => collect_typed op (modules app)
         | Some _ => Some (modules app)
         end) with
  | None => None
  | Some s =>
      let s := analyze_logs s in
      let s := evaluate_playbooks (Operator.standard op) (Operator.custom op) s in
      let s := evaluate_readiness (Operator.policy_answers op) (Operator.tool_answers op)
                 (Operator.bottleneck_answers op) s in
      let s := new_ScenarioModule s in
      let s := run_scenario_testing (Operator.run_scenarios op) (Operator.selected op) s in
      let s := new_AssessmentModule s in
      let s := snd (generate_assessment (Operator.report_time op) s) in
      Some (mkApp R s true)
  end.

(** The start of choices 3 and 5: without a profile the operator is asked
    whether to collect one now; [None] when the action is given up, and
    otherwise the outcome of the collection. *)
Definition require_profile (op : Operator.t) (self : Session R)
  : option (option (Session R)) :=
  match profile self with
  | Some _ => Some (Some self)
  | None => if Operator.collect_now op then Some (collect_typed op self) else None
  end.

(** [IRRApplication.run_individual_module]; [None] when an exception ends it. *)
Definition run_individual_module (choice : Z) (op : Operator.t) (app : IRRApplication R)
  : option (IRRApplication R) :=
  let s := modules app in
  if (choice =? 2)%Z then
    match profile s with
    | Some _ => Some app
    | None =>
        match collect_typed op s with
        | Some s' => Some (mkApp R s' (scenario_module app))
        | None => None
        end
    end
  else if (choice =? 3)%Z then
    match require_profile op s with
    | None => Some app
    | Some None => None
    | Some (Some s') => Some (mkApp R (analyze_logs s') (scenario_module app))
    end
  else if (choice =? 4)%Z then
    Some (mkApp R (evaluate_playbooks (Operator.standard op) (Operator.custom op) s)
            (scenario_module app))
  else if (choice =? 5)%Z then
    match require_profile op s with
    | None => Some app
    | Some None => None
    | Some (Some s') =>
        Some (mkApp R (evaluate_readiness (Operator.policy_answers op)
                         (Operator.tool_answers op) (Operator.bottleneck_answers op) s')
                (scenario_module app))
    end
  else if (choice =? 6)%Z then
    match log_results s, playbook_results s with
    | _ :: _, _ :: _ =>
        Some (mkApp R (run_scenario_testing (Operator.run_scenarios op)
                         (Operator.selected op) (ensure_scenario app))
                true)
    | _, _ => Some app
    end
  else if (choice =? 7)%Z then
    match log_results s, playbook_results s with
    | _ :: _, _ :: _ =>
        let s := ensure_scenario app in
        let s := new_AssessmentModule s in
        Some (mkApp R (snd (generate_assessment (Operator.report_time op) s)) true)
    | _, _ => Some app
    end
  else Some app.

(** One round of the loop of [IRRApplication.run] that does not leave it:
    choice 1 is the full assessment, any other choice an individual module. *)
Definition run_choice (choice : Z) (op : Operator.t) (app : IRRApplication R)
  : option (IRRApplication R) :=
  if (choice =? 1)%Z then run_full_assessment op app
  else run_individual_module choice op app.

(** The states of the application after some rounds of its loop. *)
Inductive app_reachable : IRRApplication R -> Prop :=
| app_reachable_initial : app_reachable initial_application
| app_reachable_round app choice op app' :
    app_reachable app -> choice <> 0%Z -> run_choice choice op app = Some app' ->
    app_reachable app'.

End Application.

(** Close a goal about concrete lists and truth values: conjunctions,
    equivalences, memberships and disequalities that computation decides. *)
Ltac concrete_facts :=
  repeat match goal with
         | |- _ /\ _ => split
         | |- _ <-> _ => split
         | |- _ -> _ => intro
         end;
  try reflexivity; try discriminate; try solve [cbn [In]; auto 10];
  try solve [exfalso; cbn [In] in *;
             repeat match goal with
                    | H : _ \/ _ |- _ => destruct H as [H | H]
                    | H : False |- _ => destruct H
                    | H : ?x <> ?x |- _ => apply H; reflexivity
                    | H : _ = _ |- _ => discriminate H
                    end].

(** A run whose scores are the highest the scorers give: a Windows log source
    kept for 90 days, a playbook that no rule matches, every policy present,
    documented and tested, every tool operational and integrated. *)
Definition session_at_best : Session Q :=
  new_AssessmentModule
    (evaluate_readiness (fun _ => policy_exists true true) (fun _ => (true, true))
       (fun _ => false)
       (evaluate_playbooks false ["Insider Threat Response"]
          (analyze_logs
             (collect_environment_data (sample_profile 90 "Windows Event Logs")
                initial_session)))).

(** Whether a required log is covered in a session: the name of some available
    log source contains its name, both as [lower] returns them (the test of
    [_test_scenario]). *)
Definition covered {R : Type} {B : Builtins} (self : Session R) (log : string) : bool :=
  any (fun al => str_in (lower log) (lower al))
      (map LogAnalysisResult.source_name
           (filter LogAnalysisResult.available (log_results self))).

(** Whether a session holds the playbook that a scenario requires (the test of
    [_test_scenario]). *)
Definition has_playbook {R : Type} {B : Builtins} (self : Session R)
    (scenario : Scenario.t) : bool :=
  any (fun pb => str_in (lower (Scenario.required_playbook scenario)) (lower pb))
      (map PlaybookAnalysisResult.playbook_name (playbook_results self)).

(** The number of commas of a string. *)
Fixpoint commas (s : string) : nat :=
  match s with
  | EmptyString => 0
  | String c s' => ((if Ascii.eqb c "," then 1 else 0) + commas s')%nat
  end.

(** What every assessment that the application produces satisfies. *)
Definition application_report (a : ReadinessAssessment.t Q) : Prop :=
  incl timeline_recommendations (ReadinessAssessment.recommendations a) /\
  ~ In insufficient_log_coverage (ReadinessAssessment.critical_gaps a) /\
  0.73 <= ReadinessAssessment.evidence_availability a <= 0.81 /\
  ReadinessAssessment.readiness_level a <> "Excellent".

(** What the application keeps true of its modules between two actions. *)
Definition application_invariant {B : Builtins} (app : IRRApplication Q) : Prop :=
  reachable (modules app) /\
  (forall p, profile (modules app) = Some p -> EnvironmentProfile.log_sources p <> []) /\
  (forall a, assessment (modules app) = Some a -> application_report a).

(** The answers of an operator who accepts every default by typing nothing:
    the defaults of the profile, the standard playbooks and no custom one,
    every policy present, documented and tested, every tool operational and
    integrated, every bottleneck confirmed, all scenarios. *)
Definition operator_of_defaults : Operator.t :=
  Operator.mk "" "" "" "" "" "" "" "2024-01-01T00:00:00" true true []
    (fun _ => policy_exists true true) (fun _ => (true, true)) (fun _ => true)
    true None "2024-01-02T00:00:00".

(** The application after one full assessment by the operator who accepts
    every default (the initial application, should that run fail). *)
Definition application_after_defaults : IRRApplication Q :=
  match run_choice (B := ascii_builtins) 1 operator_of_defaults initial_application with
  | Some app => app
  | None => initial_application
  end.

(** * Tactics *)

(** Read the arithmetic of the interface at the rationals. *)
Ltac q_ops :=
  cbn [num_lit num_of_int num_add num_sub num_mul num_div num_ltb num_leb Q_Number] in *.

(** Split on the conditions of the conditionals of the goal. *)
Ltac case_ifs :=
  repeat match goal with
         | |- context [if ?b then _ else _] => destruct b
         | |- context [match ?l with [] => _ | _ :: _ => _ end] => destruct l
         end.

(** * The arithmetic of the two carriers *)

Lemma Qltb_lt (x y : Q) : Qltb x y = true <-> x < y.
Proof.
  unfold Qltb. rewrite Qlt_alt. destruct (x ?= y)%Q; split; congruence.
Qed.

Lemma Qltb_ge (x y : Q) : Qltb x y = false <-> y <= x.
Proof.
  rewrite <- not_true_iff_false, Qltb_lt. split.
  - apply Qnot_lt_le.
  - intros H H'. exact (Qlt_not_le _ _ H' H).
Qed.

Lemma Qle_bool_false (x y : Q) : Qle_bool x y = false <-> y < x.
Proof.
  rewrite <- not_true_iff_false, Qle_bool_iff. split.
  - apply Qnot_le_lt.
  - intros H H'. exact (Qlt_not_le _ _ H H').
Qed.

(** The literals of the program, as the doubles Python reads them. *)
Lemma binary64_literals :
  map (@num_lit float _)
      [0.0; 0.05; 0.08; 0.10; 0.12; 0.15; 0.2; 0.25; 0.3; 0.30; 0.4; 0.40; 0.5; 0.6;
       0.60; 0.65; 0.7; 0.70; 0.72; 0.75; 0.8; 0.80; 0.85; 0.9; 1.0]%Q
  = [0.0; 0.05; 0.08; 0.10; 0.12; 0.15; 0.2; 0.25; 0.3; 0.30; 0.4; 0.40; 0.5; 0.6;
     0.60; 0.65; 0.7; 0.70; 0.72; 0.75; 0.8; 0.80; 0.85; 0.9; 1.0]%float.
Proof. vm_compute. reflexivity. Qed.

(** * Aggregates of empty collections *)

Section AnyCarrier.

Context {R : Type} {N : Number R}.

(** C6: at every carrier, the evidence-availability score of a session with no
    log result and the playbook-effectiveness score of a session with no
    playbook result are the literal [0.0] (no quotient is formed), and so is
    the tool score that [_evaluate_tools] stores when the profile lists no
    tool. *)
Theorem aggregates_of_empty (self : Session R) :
  (log_results self = [] -> get_evidence_availability_score self = num_lit 0.0) /\
  (playbook_results self = [] -> get_playbook_effectiveness_score self = num_lit 0.0) /\
  (forall answers p,
      profile self = Some p -> EnvironmentProfile.security_tools p = [] ->
      tool_score (_evaluate_tools answers self) = num_lit 0.0).
Proof.
  repeat split.
  - intros H. unfold get_evidence_availability_score. rewrite H. reflexivity.
  - intros H. unfold get_playbook_effectiveness_score. rewrite H. reflexivity.
  - intros answers p Hp Ht. unfold _evaluate_tools. rewrite Hp, Ht. reflexivity.
Qed.

(** * A scenario that requires no log *)

(** C7: at every carrier, for a scenario whose list of required logs is empty
    the evaluator returns a result whose log availability is the literal
    [0.0]: the quotient by the length of the list is not formed. *)
Theorem no_required_logs {B : Builtins} (self : Session R) (scenario : Scenario.t) :
  Scenario.required_logs scenario = [] ->
  ScenarioResult.log_availability (_test_scenario self scenario) = num_lit 0.0.
Proof.
  intros H. unfold _test_scenario. rewrite H. cbn [filter length].
  repeat match goal with |- context [if ?b then _ else _] => destruct b end;
    reflexivity.
Qed.

(** * The length of the recommendation list *)

(** C9: at every carrier and from every session, the recommendation list of
    the generated assessment has at most 15 entries. *)
Theorem recommendations_at_most_15 (now : string) (self : Session R) :
  (length (ReadinessAssessment.recommendations (fst (generate_assessment now self)))
   <= 15)%nat.
Proof.
  unfold generate_assessment. destruct (_prioritize_gaps self) as [[c h] m].
  cbn [fst ReadinessAssessment.recommendations].
  unfold _generate_recommendations. apply firstn_le_length.
Qed.

End AnyCarrier.

Lemma aggregates_of_empty_witness :
  @get_evidence_availability_score Q _ initial_session = 0.0 /\
  @get_playbook_effectiveness_score Q _ initial_session = 0.0.
Proof.
  split.
  - exact (proj1 (aggregates_of_empty initial_session) eq_refl).
  - exact (proj1 (proj2 (aggregates_of_empty initial_session)) eq_refl).
Defined.

Lemma no_required_logs_witness :
  Scenario.required_logs scenario_without_logs = [] /\
  ScenarioResult.log_availability
    (@_test_scenario float _ ascii_builtins session_before_report scenario_without_logs)
  = 0.0%float.
Proof.
  split; [reflexivity |].
  exact (no_required_logs (B := ascii_builtins) session_before_report
           scenario_without_logs eq_refl).
Defined.

(** * The playbook scorer on "Ransomware Response" *)

(** C8: the result for "Ransomware Response" has clarity 0.70, feasibility 0.70
    and completeness 0.64, with an ambiguous step and a missing element; over
    the rationals, and in binary64, where [0.75 - 0.05] and [0.72 - 0.08] round
    to the doubles of 0.70 and 0.64. *)
Theorem ransomware_response_scores :
  (let r : PlaybookAnalysisResult.t Q := _evaluate_playbook "Ransomware Response" in
   PlaybookAnalysisResult.clarity_score r == 0.70 /\
   PlaybookAnalysisResult.clarity_score r == 0.75 - 0.05 /\
   PlaybookAnalysisResult.feasibility_score r == 0.70 /\
   PlaybookAnalysisResult.completeness_score r == 0.64 /\
   PlaybookAnalysisResult.completeness_score r == 0.72 - 0.08 /\
   PlaybookAnalysisResult.ambiguous_steps r <> [] /\
   PlaybookAnalysisResult.missing_elements r <> []) /\
  (let r : PlaybookAnalysisResult.t float := _evaluate_playbook "Ransomware Response" in
   PlaybookAnalysisResult.clarity_score r = 0.70%float /\
   PlaybookAnalysisResult.feasibility_score r = 0.70%float /\
   PlaybookAnalysisResult.completeness_score r = 0.64%float /\
   PlaybookAnalysisResult.ambiguous_steps r <> [] /\
   PlaybookAnalysisResult.missing_elements r <> []).
Proof.
  split; vm_compute; repeat split; (reflexivity || discriminate).
Qed.

(** * The scorers are functions of their inputs *)

Section Determinism.

Context {R : Type} {N : Number R} {B : Builtins}.








End Determinism.

(** The recommendation lists of two reports generated one after the other on
    the same module can differ: in the run of [session_before_report] the
    first report carries the two timeline recommendations and the second,
    which reads the timeline score 0.86 stored by the first, does not. *)
Lemma second_report_reads_first :
  let s : Session float := session_before_report in
  let a1 := fst (generate_assessment "2024-01-02T00:00:00" s) in
  let a2 := fst (generate_assessment "2024-01-02T00:00:00"
                   (snd (generate_assessment "2024-01-02T00:00:00" s))) in
  incl timeline_recommendations (ReadinessAssessment.recommendations a1) /\
  ~ incl timeline_recommendations (ReadinessAssessment.recommendations a2).
Proof.
  vm_compute. split.
  - intros x [<- | [<- | []]]; auto 10.
  - intros H.
    assert (Hin : In "Improve log correlation and timestamp synchronization"%string
                     ["Improve log correlation and timestamp synchronization"%string;
                      "Deploy network traffic analysis (NTA) for comprehensive visibility"%string])
      by (left; reflexivity).
    apply H in Hin. cbn [In] in Hin. intuition discriminate.
Qed.

(** * The log scorer on a Windows source *)

(** C1, as the code has it: with 90 days of retention, the result for
    "Windows Event Logs" has timestamp consistency 0.85, retention compliance,
    volume 0.80 and completeness 0.75, and exactly one issue, the timestamp
    synchronization issue that any consistency below 0.9 brings; over the
    rationals and in binary64. *)
Theorem windows_event_logs_scores (environment : EnvironmentProfile.t) :
  EnvironmentProfile.retention_days environment = 90%Z ->
  (let r : LogAnalysisResult.t Q := _analyze_log_source environment "Windows Event Logs" in
   LogAnalysisResult.timestamp_consistency r == 0.85 /\
   LogAnalysisResult.retention_compliance r = true /\
   LogAnalysisResult.volume_score r == 0.80 /\
   LogAnalysisResult.completeness_score r == 0.75 /\
   LogAnalysisResult.issues r = ["Potential timestamp synchronization issues detected"]) /\
  (let r : LogAnalysisResult.t float :=
     _analyze_log_source environment "Windows Event Logs" in
   LogAnalysisResult.timestamp_consistency r = 0.85%float /\
   LogAnalysisResult.retention_compliance r = true /\
   LogAnalysisResult.volume_score r = 0.80%float /\
   LogAnalysisResult.completeness_score r = 0.75%float /\
   LogAnalysisResult.issues r = ["Potential timestamp synchronization issues detected"]).
Proof.
  intros H. unfold _analyze_log_source. rewrite H.
  split; vm_compute; repeat split; reflexivity.
Qed.

Lemma windows_event_logs_scores_witness :
  EnvironmentProfile.retention_days (sample_profile 90 "Windows Event Logs") = 90%Z /\
  LogAnalysisResult.issues
    (@_analyze_log_source Q _ (sample_profile 90 "Windows Event Logs") "Windows Event Logs")
  = ["Potential timestamp synchronization issues detected"].
Proof.
  split; [reflexivity |].
  apply (windows_event_logs_scores (sample_profile 90 "Windows Event Logs")).
  reflexivity.
Defined.

(** C1, as stated, fails: the issue list of that result is not empty. *)
Lemma windows_event_logs_has_an_issue :
  ~ (let r : LogAnalysisResult.t Q :=
       _analyze_log_source (sample_profile 90 "Windows Event Logs") "Windows Event Logs" in
     LogAnalysisResult.timestamp_consistency r == 0.85 /\
     LogAnalysisResult.retention_compliance r = true /\
     LogAnalysisResult.volume_score r == 0.80 /\
     LogAnalysisResult.completeness_score r == 0.75 /\
     LogAnalysisResult.issues r = []).
Proof.
  intros (_ & _ & _ & _ & H). vm_compute in H. discriminate H.
Qed.

(** * The readiness ladder *)

(** C3: over the rationals the tier is Excellent exactly from 0.85 up, High
    exactly on [0.75, 0.85), Moderate on [0.60, 0.75), Low on [0.40, 0.60) and
    Critical below 0.40; the boundary scores 0.85, 0.60 and 0.40 give
    Excellent, Moderate and Low, also in binary64, where the doubles just
    below them give the tier beneath. *)
Theorem readiness_ladder :
  (forall score : Q,
      (_determine_readiness_level score = ReadinessLevel.EXCELLENT <-> 0.85 <= score) /\
      (_determine_readiness_level score = ReadinessLevel.HIGH
       <-> 0.75 <= score /\ score < 0.85) /\
      (_determine_readiness_level score = ReadinessLevel.MODERATE
       <-> 0.60 <= score /\ score < 0.75) /\
      (_determine_readiness_level score = ReadinessLevel.LOW
       <-> 0.40 <= score /\ score < 0.60) /\
      (_determine_readiness_level score = ReadinessLevel.CRITICAL <-> score < 0.40)) /\
  (@_determine_readiness_level Q _ 0.85 = ReadinessLevel.EXCELLENT /\
   @_determine_readiness_level Q _ 0.60 = ReadinessLevel.MODERATE /\
   @_determine_readiness_level Q _ 0.40 = ReadinessLevel.LOW) /\
  (_determine_readiness_level 0.85%float = ReadinessLevel.EXCELLENT /\
   _determine_readiness_level 0.849999%float = ReadinessLevel.HIGH /\
   _determine_readiness_level 0.60%float = ReadinessLevel.MODERATE /\
   _determine_readiness_level 0.599999%float = ReadinessLevel.LOW /\
   _determine_readiness_level 0.40%float = ReadinessLevel.LOW /\
   _determine_readiness_level 0.399999%float = ReadinessLevel.CRITICAL).
Proof.
  split; [| split; vm_compute; repeat split; reflexivity].
  intros score. unfold _determine_readiness_level. cbn [num_leb num_lit Q_Number].
  destruct (Qle_bool 0.85 score) eqn:E1;
    [apply Qle_bool_iff in E1 | apply Qle_bool_false in E1];
  (destruct (Qle_bool 0.75 score) eqn:E2;
    [apply Qle_bool_iff in E2 | apply Qle_bool_false in E2]);
  (destruct (Qle_bool 0.60 score) eqn:E3;
    [apply Qle_bool_iff in E3 | apply Qle_bool_false in E3]);
  (destruct (Qle_bool 0.40 score) eqn:E4;
    [apply Qle_bool_iff in E4 | apply Qle_bool_false in E4]);
  repeat split; intros; try discriminate; try reflexivity; try lra.
Qed.

(** * Bounds over the rationals *)

Lemma len_cons {A : Type} (x : A) (l : list A) : @len Q _ A (x :: l) == len l + 1.
Proof.
  unfold len. q_ops. cbn [length]. rewrite Nat2Z.inj_succ, <- Z.add_1_r.
  rewrite inject_Z_plus. reflexivity.
Qed.

Lemma len_nonneg {A : Type} (l : list A) : 0 <= @len Q _ A l.
Proof.
  unfold len. q_ops. change 0 with (inject_Z 0). rewrite <- Zle_Qle. lia.
Qed.

Lemma len_pos {A : Type} (l : list A) : l <> [] -> 0 < @len Q _ A l.
Proof.
  intros H. destruct l as [| x l]; [congruence |].
  rewrite len_cons. pose proof (len_nonneg l). lra.
Qed.

Lemma fold_sum_bounds (a b : Q) (l : list Q) :
  Forall (fun x => a <= x <= b) l ->
  forall acc, acc + a * len l <= fold_left Qplus l acc <= acc + b * len l.
Proof.
  induction 1 as [| x l Hx _ IH]; intros acc.
  - unfold len. q_ops. cbn [length Z.of_nat fold_left]. change (inject_Z 0) with 0. lra.
  - cbn [fold_left]. specialize (IH (acc + x)). rewrite len_cons. lra.
Qed.

(** The mean of a non-empty list lies between bounds of its elements. *)
Lemma mean_bounds (a b : Q) (l : list Q) :
  l <> [] -> Forall (fun x => a <= x <= b) l -> a <= sum l / len l <= b.
Proof.
  intros Hne H. pose proof (len_pos l Hne) as Hn.
  pose proof (fold_sum_bounds a b l H (inject_Z 0)) as [Hlo Hhi].
  unfold sum. q_ops. change (inject_Z 0) with 0 in *. split.
  - apply Qle_shift_div_l; [exact Hn |]. lra.
  - apply Qle_shift_div_r; [exact Hn |]. lra.
Qed.

(** The aggregates of the program: [0.0] for no result, the mean otherwise. *)
Lemma guarded_mean_bounds {A : Type} (f : A -> Q) (a b : Q) (l : list A) :
  Forall (fun r => a <= f r <= b) l ->
  l <> [] -> a <= sum (map f l) / len (map f l) <= b.
Proof.
  intros H Hne. apply mean_bounds.
  - destruct l; [congruence | discriminate].
  - apply Forall_map. exact H.
Qed.

(** ** The log scorer *)

Lemma log_scored_bounds (r : LogAnalysisResult.t Q) :
  log_scored r ->
  log_scores_in_unit r /\
  (11 # 15) <= (LogAnalysisResult.timestamp_consistency r
                + LogAnalysisResult.volume_score r
                + LogAnalysisResult.completeness_score r) / 3 <= 0.8.
Proof.
  intros (environment & source & ->).
  unfold log_scores_in_unit, unit_interval, _analyze_log_source.
  case_ifs;
    cbn [LogAnalysisResult.timestamp_consistency LogAnalysisResult.volume_score
         LogAnalysisResult.completeness_score];
    q_ops; repeat split; apply Qle_bool_imp_le; reflexivity.
Qed.

(** ** The playbook scorer *)

Lemma max_zero_unit (x : Q) : x <= 1 -> unit_interval (max (num_lit 0.0) x).
Proof.
  intros H. unfold max, unit_interval. q_ops.
  destruct (Qltb 0.0 x) eqn:E.
  - apply Qltb_lt in E. lra.
  - lra.
Qed.

Lemma playbook_scored_bounds (r : PlaybookAnalysisResult.t Q) :
  playbook_scored r -> playbook_scores_in_unit r.
Proof.
  intros (playbook_name & ->).
  unfold playbook_scores_in_unit, _evaluate_playbook.
  destruct (str_in "Malware" playbook_name || str_in "Ransomware" playbook_name);
    destruct (str_in "Phishing" playbook_name);
    destruct (str_in "Data Breach" playbook_name);
    cbn [PlaybookAnalysisResult.clarity_score PlaybookAnalysisResult.feasibility_score
         PlaybookAnalysisResult.completeness_score];
    repeat split; apply max_zero_unit; q_ops; lra.
Qed.

(** ** The scenario evaluator *)

Lemma ratio_unit (k n : nat) :
  (k <= n)%nat -> (0 < n)%nat ->
  unit_interval (inject_Z (Z.of_nat k) / inject_Z (Z.of_nat n)).
Proof.
  intros Hk Hn. unfold unit_interval.
  assert (H0 : 0 < inject_Z (Z.of_nat n)).
  { change 0 with (inject_Z 0). rewrite <- Zlt_Qlt. lia. }
  split.
  - apply Qle_shift_div_l; [exact H0 |]. rewrite Qmult_0_l.
    change 0 with (inject_Z 0). rewrite <- Zle_Qle. lia.
  - apply Qle_shift_div_r; [exact H0 |]. rewrite Qmult_1_l.
    rewrite <- Zle_Qle. lia.
Qed.

Lemma scenario_scored_bounds {B : Builtins} (r : ScenarioResult.t Q) :
  scenario_scored r -> scenario_scores_in_unit r.
Proof.
  intros (self & scenario & ->).
  unfold scenario_scores_in_unit, _test_scenario. cbv zeta.
  set (available_logs :=
         map LogAnalysisResult.source_name
             (filter LogAnalysisResult.available (log_results self))).
  set (covered :=
         filter (fun log => any (fun al => str_in (lower log) (lower al)) available_logs)
                (Scenario.required_logs scenario)).
  set (log_availability :=
         match Scenario.required_logs scenario with
         | [] => num_lit 0.0
         | _ => (num_of_int (Z.of_nat (length covered))
                 / len (Scenario.required_logs scenario))%num
         end).
  assert (Hla : unit_interval log_availability).
  { subst log_availability covered.
    destruct (Scenario.required_logs scenario) as [| log logs] eqn:E.
    - unfold unit_interval. q_ops. lra.
    - unfold len. q_ops. apply ratio_unit.
      + apply filter_length_le.
      + cbn [length]. lia. }
  clearbody log_availability. unfold unit_interval in *.
  case_ifs;
    cbn [ScenarioResult.readiness_score ScenarioResult.log_availability
         ScenarioResult.timeline_feasibility];
    q_ops; lra.
Qed.

(** ** Policies and tools *)

Lemma Forall_append {A : Type} (P : A -> Prop) (l : list A) (x : A) :
  Forall P l -> P x -> Forall P (append l x).
Proof.
  intros Hl Hx. unfold append. apply Forall_app. split; [exact Hl | auto].
Qed.

Lemma policies_loop_scores (answers : nat -> PolicyAnswer) (todo : list (string * string)) :
  forall i policy_scores recommendations,
    Forall unit_interval policy_scores ->
    Forall unit_interval (fst (policies_loop answers i todo policy_scores recommendations)).
Proof.
  induction todo as [| [policy_name description] todo IH];
    intros i policy_scores recommendations H; cbn [policies_loop].
  - exact H.
  - destruct (answers i) as [| documented tested].
    + apply IH. apply Forall_append; [exact H |]. unfold unit_interval. q_ops. lra.
    + apply IH. apply Forall_append; [exact H |].
      unfold unit_interval. destruct documented, tested; q_ops;
        change (inject_Z 0) with 0; lra.
Qed.

Lemma tools_loop_scores (answers : nat -> bool * bool) (tools : list string) :
  forall i tool_scores recommendations,
    Forall unit_interval tool_scores ->
    Forall unit_interval (fst (tools_loop answers i tools tool_scores recommendations)).
Proof.
  induction tools as [| tool tools IH];
    intros i tool_scores recommendations H; cbn [tools_loop].
  - exact H.
  - destruct (answers i) as [operational integrated].
    apply IH. apply Forall_append; [exact H |].
    unfold unit_interval. destruct operational, integrated; q_ops; lra.
Qed.

(** [0.0] for no score, the mean of the scores otherwise. *)
Lemma guarded_mean_unit (scores : list Q) :
  Forall unit_interval scores ->
  unit_interval (match scores with
                 | [] => num_lit 0.0
                 | _ => sum scores / len scores
                 end).
Proof.
  intros H. destruct scores as [| x scores].
  - unfold unit_interval. q_ops. lra.
  - apply (mean_bounds 0 1); [discriminate | exact H].
Qed.

Lemma _evaluate_policies_score (answers : nat -> PolicyAnswer) (self : Session Q) :
  unit_interval (policy_score (_evaluate_policies answers self)).
Proof.
  unfold _evaluate_policies.
  pose proof (policies_loop_scores answers policies 0 [] (policy_recommendations self)
                (Forall_nil _)) as H.
  destruct (policies_loop answers 0 policies [] (policy_recommendations self))
    as [policy_scores recommendations].
  cbn [fst] in H. cbn [policy_score set_policy_score].
  apply guarded_mean_unit. exact H.
Qed.

Lemma _evaluate_tools_score (answers : nat -> bool * bool) (self : Session Q) :
  unit_interval (tool_score (_evaluate_tools answers self)).
Proof.
  unfold _evaluate_tools. destruct (profile self) as [p |].
  - pose proof (tools_loop_scores answers (EnvironmentProfile.security_tools p) 0 []
                  (policy_recommendations self) (Forall_nil _)) as H.
    destruct (tools_loop answers 0 (EnvironmentProfile.security_tools p) []
                (policy_recommendations self)) as [tool_scores recommendations].
    cbn [fst] in H. cbn [tool_score set_tool_score].
    apply guarded_mean_unit. exact H.
  - cbn [tool_score set_tool_score]. unfold unit_interval. q_ops. lra.
Qed.

Lemma _evaluate_policies_frame (answers : nat -> PolicyAnswer) (self : Session Q) :
  let self' := _evaluate_policies answers self in
  profile self' = profile self /\ log_results self' = log_results self /\
  playbook_results self' = playbook_results self /\ tool_score self' = tool_score self /\
  scenarios self' = scenarios self /\ assessment self' = assessment self.
Proof.
  unfold _evaluate_policies.
  destruct (policies_loop answers 0 policies [] (policy_recommendations self)).
  cbn. repeat split.
Qed.

Lemma _evaluate_tools_frame (answers : nat -> bool * bool) (self : Session Q) :
  let self' := _evaluate_tools answers self in
  profile self' = profile self /\ log_results self' = log_results self /\
  playbook_results self' = playbook_results self /\
  policy_score self' = policy_score self /\
  scenarios self' = scenarios self /\ assessment self' = assessment self.
Proof.
  unfold _evaluate_tools. destruct (profile self) as [p |] eqn:E.
  - destruct (tools_loop answers 0 (EnvironmentProfile.security_tools p) []
                (policy_recommendations self)).
    cbn. repeat split. exact E.
  - cbn. repeat split. exact E.
Qed.

Lemma _identify_bottlenecks_frame (answers : nat -> bool) (self : Session Q) :
  let self' := _identify_bottlenecks answers self in
  profile self' = profile self /\ log_results self' = log_results self /\
  playbook_results self' = playbook_results self /\
  policy_score self' = policy_score self /\ tool_score self' = tool_score self /\
  scenarios self' = scenarios self /\ assessment self' = assessment self.
Proof.
  unfold _identify_bottlenecks.
  destruct (bottlenecks_loop answers 0 potential_bottlenecks (bottlenecks self)
              (policy_recommendations self)).
  cbn. repeat split.
Qed.

(** ** The aggregates of a session *)

Lemma evidence_bounds (self : Session Q) :
  Forall log_scored (log_results self) -> log_results self <> [] ->
  (11 # 15) <= get_evidence_availability_score self <= 0.8.
Proof.
  intros H Hne. unfold get_evidence_availability_score.
  destruct (log_results self) as [| r rs] eqn:E; [congruence |].
  apply guarded_mean_bounds; [| discriminate].
  eapply Forall_impl; [| exact H].
  intros r' Hr'. q_ops. apply (log_scored_bounds r' Hr').
Qed.

Lemma evidence_unit (self : Session Q) :
  Forall log_scored (log_results self) ->
  unit_interval (get_evidence_availability_score self).
Proof.
  intros H. destruct (log_results self) as [| r rs] eqn:E.
  - unfold get_evidence_availability_score. rewrite E. unfold unit_interval. q_ops. lra.
  - assert (Hne : log_results self <> []) by (rewrite E; discriminate).
    rewrite <- E in H. pose proof (evidence_bounds self H Hne).
    unfold unit_interval. lra.
Qed.

Lemma third_of_three_units (x y z : Q) :
  unit_interval x -> unit_interval y -> unit_interval z ->
  0 <= (x + y + z) / inject_Z 3 <= 1.
Proof.
  unfold unit_interval. intros Hx Hy Hz.
  assert (H3 : 0 < inject_Z 3) by reflexivity.
  split.
  - apply Qle_shift_div_l; [exact H3 |]. change (inject_Z 3) with 3. lra.
  - apply Qle_shift_div_r; [exact H3 |]. change (inject_Z 3) with 3. lra.
Qed.

Lemma playbook_effectiveness_unit (self : Session Q) :
  Forall playbook_scored (playbook_results self) ->
  unit_interval (get_playbook_effectiveness_score self).
Proof.
  intros H. unfold get_playbook_effectiveness_score.
  destruct (playbook_results self) as [| r rs] eqn:E.
  - unfold unit_interval. q_ops. lra.
  - apply guarded_mean_bounds; [| discriminate].
    eapply Forall_impl; [| exact H].
    intros r' Hr'. q_ops.
    destruct (playbook_scored_bounds r' Hr') as (Hc & Hf & Hm).
    apply third_of_three_units; assumption.
Qed.

Lemma policy_alignment_unit (self : Session Q) :
  unit_interval (policy_score self) -> unit_interval (tool_score self) ->
  unit_interval (get_policy_alignment_score self).
Proof.
  unfold unit_interval, get_policy_alignment_score. intros Hp Ht. q_ops.
  assert (H2 : 0 < inject_Z 2) by reflexivity.
  split.
  - apply Qle_shift_div_l; [exact H2 |]. change (inject_Z 2) with 2. lra.
  - apply Qle_shift_div_r; [exact H2 |]. change (inject_Z 2) with 2. lra.
Qed.

Lemma timeline_score_unit (self : Session Q) (evidence_score policy_score : Q) :
  unit_interval evidence_score -> unit_interval policy_score ->
  unit_interval (_calculate_timeline_score self evidence_score policy_score).
Proof.
  unfold unit_interval, _calculate_timeline_score. intros He Hp.
  destruct (profile self) as [p |]; case_ifs; q_ops; lra.
Qed.

Lemma generate_assessment_fields (now : string) (self : Session Q) :
  let a := fst (generate_assessment now self) in
  ReadinessAssessment.evidence_availability a = get_evidence_availability_score self /\
  ReadinessAssessment.playbook_effectiveness a = get_playbook_effectiveness_score self /\
  ReadinessAssessment.policy_alignment a = get_policy_alignment_score self /\
  ReadinessAssessment.timeline_reconstruction a
  = _calculate_timeline_score self (get_evidence_availability_score self)
      (get_policy_alignment_score self) /\
  ReadinessAssessment.overall_score a
  = (get_evidence_availability_score self * num_lit 0.30
     + get_playbook_effectiveness_score self * num_lit 0.25
     + get_policy_alignment_score self * num_lit 0.25
     + _calculate_timeline_score self (get_evidence_availability_score self)
         (get_policy_alignment_score self) * num_lit 0.20)%num /\
  ReadinessAssessment.critical_gaps a = fst (fst (_prioritize_gaps self)) /\
  ReadinessAssessment.recommendations a = _generate_recommendations self /\
  snd (generate_assessment now self) = set_assessment (Some a) self.
Proof.
  unfold generate_assessment. destruct (_prioritize_gaps self) as [[c h] m].
  cbn. repeat split.
Qed.

(** ** The assessment *)

Lemma generate_assessment_unit {B : Builtins} (now : string) (self : Session Q) :
  session_invariant self ->
  assessment_scores_in_unit (fst (generate_assessment now self)).
Proof.
  intros (Hl & Hp & Hps & Hts & _ & _).
  destruct (generate_assessment_fields now self)
    as (He & Hpb & Hpa & Htl & Hov & _).
  unfold assessment_scores_in_unit. rewrite He, Hpb, Hpa, Htl, Hov.
  pose proof (evidence_unit self Hl) as Ue.
  pose proof (playbook_effectiveness_unit self Hp) as Up.
  pose proof (policy_alignment_unit self Hps Hts) as Ua.
  pose proof (timeline_score_unit self _ _ Ue Ua) as Ut.
  repeat split; try apply Ue; try apply Up; try apply Ua; try apply Ut;
    unfold unit_interval in *; q_ops; lra.
Qed.

(** ** The invariant of the reachable sessions *)

Lemma initial_session_invariant {B : Builtins} : session_invariant initial_session.
Proof.
  unfold session_invariant, initial_session. cbn.
  repeat split; try constructor; try discriminate.
Qed.

Lemma step_preserves_invariant {B : Builtins} (s s' : Session Q) :
  session_invariant s -> step s s' -> session_invariant s'.
Proof.
  intros Inv Hstep. pose proof Inv as (Hl & Hp & Hps & Hts & Hsc & Ha).
  destruct Hstep as [p s | s | standard custom s | pa ta ba s | s
                     | run selected s | s | now s].
  - unfold session_invariant, collect_environment_data. cbn. exact Inv.
  - unfold analyze_logs. destruct (profile s) as [p |]; [| exact Inv].
    refine (conj _ (conj Hp (conj Hps (conj Hts (conj Hsc Ha))))).
    cbn [log_results set_log_results].
    apply Forall_forall. intros r Hin. apply in_map_iff in Hin.
    destruct Hin as (source & <- & _). exists p, source. reflexivity.
  - refine (conj Hl (conj _ (conj Hps (conj Hts (conj Hsc Ha))))).
    unfold evaluate_playbooks. cbn [playbook_results set_playbook_results].
    apply Forall_app. split.
    + destruct standard; [| exact Hp]. apply Forall_app. split; [exact Hp |].
      apply Forall_forall. intros r Hin. apply in_map_iff in Hin.
      destruct Hin as (name & <- & _). exists name. reflexivity.
    + apply Forall_forall. intros r Hin. apply in_map_iff in Hin.
      destruct Hin as (name & <- & _). exists name. reflexivity.
  - unfold evaluate_readiness. cbv zeta.
    set (s1 := _evaluate_policies pa s). set (s2 := _evaluate_tools ta s1).
    destruct (_evaluate_policies_frame pa s) as (_ & El1 & Ep1 & Et1 & Es1 & Ea1).
    destruct (_evaluate_tools_frame ta s1) as (_ & El2 & Ep2 & Eps2 & Es2 & Ea2).
    destruct (_identify_bottlenecks_frame ba s2)
      as (_ & El3 & Ep3 & Eps3 & Et3 & Es3 & Ea3).
    fold s1 in El1, Ep1, Et1, Es1, Ea1. fold s2 in El2, Ep2, Eps2, Es2, Ea2.
    unfold session_invariant.
    rewrite El3, Ep3, Eps3, Et3, Es3, Ea3, El2, Ep2, Eps2, Es2, Ea2, El1, Ep1, Es1, Ea1.
    refine (conj Hl (conj Hp (conj _ (conj _ (conj Hsc Ha))))).
    + apply _evaluate_policies_score.
    + apply _evaluate_tools_score.
  - refine (conj Hl (conj Hp (conj Hps (conj Hts (conj _ Ha))))).
    cbn [new_ScenarioModule scenarios set_scenarios]. constructor.
  - unfold run_scenario_testing. destruct run; [| exact Inv].
    refine (conj Hl (conj Hp (conj Hps (conj Hts (conj _ Ha))))).
    cbn [scenarios set_scenarios]. apply Forall_app. split; [exact Hsc |].
    apply Forall_forall. intros r Hin. apply in_map_iff in Hin.
    destruct Hin as (scenario & <- & _). exists s, scenario. reflexivity.
  - refine (conj Hl (conj Hp (conj Hps (conj Hts (conj Hsc _))))).
    cbn [new_AssessmentModule assessment set_assessment]. discriminate.
  - destruct (generate_assessment_fields now s) as (_ & _ & _ & _ & _ & _ & _ & ->).
    refine (conj Hl (conj Hp (conj Hps (conj Hts (conj Hsc _))))).
    cbn [assessment set_assessment]. intros a [= <-]. apply generate_assessment_unit. exact Inv.
Qed.

Lemma reachable_invariant {B : Builtins} (s : Session Q) : reachable s -> session_invariant s.
Proof.
  induction 1 as [| s s' _ IH Hstep].
  - exact initial_session_invariant.
  - exact (step_preserves_invariant s s' IH Hstep).
Qed.

Lemma session_with_logs_reachable {B : Builtins} {R : Type} {N : Number R} :
  reachable (@session_with_logs R N).
Proof.
  unfold session_with_logs.
  eapply reachable_step; [| apply step_analyze_logs].
  eapply reachable_step; [| apply step_collect_environment_data].
  apply reachable_initial.
Qed.

Lemma session_before_report_reachable {B : Builtins} {R : Type} {N : Number R} :
  reachable (@session_before_report R N).
Proof.
  unfold session_before_report.
  eapply reachable_step; [| apply step_new_AssessmentModule].
  eapply reachable_step; [| apply step_evaluate_readiness].
  eapply reachable_step; [| apply step_evaluate_playbooks].
  exact session_with_logs_reachable.
Qed.

(** * Scores lie in the unit interval *)

(** C4: over the rationals, the three scores of every log result, of every
    playbook result and of every scenario result lie in [[0, 1]]; so do the
    policy, tool and policy-alignment scores after [evaluate_readiness]; and in
    every session that a run reaches, every stored result, the three
    policy/tool scores, the stored assessment and the assessment generated
    next have all their scores in [[0, 1]]. *)
Theorem scores_in_unit_interval {B : Builtins} :
  (forall environment source,
      log_scores_in_unit (_analyze_log_source environment source)) /\
  (forall playbook_name, playbook_scores_in_unit (_evaluate_playbook playbook_name)) /\
  (forall self scenario, scenario_scores_in_unit (_test_scenario self scenario)) /\
  (forall policy_answers tool_answers bottleneck_answers (self : Session Q),
      let self' := evaluate_readiness policy_answers tool_answers bottleneck_answers self in
      unit_interval (policy_score self') /\
      unit_interval (tool_score self') /\
      unit_interval (get_policy_alignment_score self')) /\
  (forall self : Session Q,
      reachable self ->
      Forall log_scores_in_unit (log_results self) /\
      Forall playbook_scores_in_unit (playbook_results self) /\
      Forall scenario_scores_in_unit (scenarios self) /\
      unit_interval (policy_score self) /\
      unit_interval (tool_score self) /\
      unit_interval (get_policy_alignment_score self) /\
      (forall a, assessment self = Some a -> assessment_scores_in_unit a) /\
      (forall now, assessment_scores_in_unit (fst (generate_assessment now self)))).
Proof.
  split; [| split; [| split; [| split]]].
  - intros environment source.
    apply log_scored_bounds. exists environment, source. reflexivity.
  - intros playbook_name. apply playbook_scored_bounds. exists playbook_name. reflexivity.
  - intros self scenario. apply scenario_scored_bounds. exists self, scenario. reflexivity.
  - intros pa ta ba self self'.
    assert (Hp : unit_interval (policy_score self')).
    { subst self'. unfold evaluate_readiness. cbv zeta.
      destruct (_identify_bottlenecks_frame ba (_evaluate_tools ta (_evaluate_policies pa self)))
        as (_ & _ & _ & -> & _).
      destruct (_evaluate_tools_frame ta (_evaluate_policies pa self))
        as (_ & _ & _ & -> & _).
      apply _evaluate_policies_score. }
    assert (Ht : unit_interval (tool_score self')).
    { subst self'. unfold evaluate_readiness. cbv zeta.
      destruct (_identify_bottlenecks_frame ba (_evaluate_tools ta (_evaluate_policies pa self)))
        as (_ & _ & _ & _ & -> & _).
      apply _evaluate_tools_score. }
    split; [exact Hp | split; [exact Ht |]].
    apply policy_alignment_unit; assumption.
  - intros self Hr. pose proof (reachable_invariant self Hr) as Inv.
    pose proof Inv as (Hl & Hp & Hps & Hts & Hsc & Ha).
    repeat match goal with |- _ /\ _ => split end.
    + eapply Forall_impl; [| exact Hl]. intros r Hs. apply (log_scored_bounds r Hs).
    + eapply Forall_impl; [| exact Hp]. intros r Hs. apply (playbook_scored_bounds r Hs).
    + eapply Forall_impl; [| exact Hsc]. intros r Hs. apply (scenario_scored_bounds r Hs).
    + exact Hps.
    + exact Hts.
    + apply policy_alignment_unit; assumption.
    + exact Ha.
    + intros now. apply generate_assessment_unit. exact Inv.
Qed.

Lemma scores_in_unit_interval_witness :
  assessment_scores_in_unit
    (fst (generate_assessment "2024-01-02T00:00:00" (@session_before_report Q _))).
Proof.
  destruct (scores_in_unit_interval (B := ascii_builtins)) as (_ & _ & _ & _ & H).
  destruct (H session_before_report session_before_report_reachable)
    as (_ & _ & _ & _ & _ & _ & _ & Ha).
  exact (Ha _).
Defined.

(** * The evidence score of analysed logs *)

Lemma critical_gap_needs_no_logs (self : Session Q) :
  Forall log_scored (log_results self) ->
  In insufficient_log_coverage (fst (fst (_prioritize_gaps self))) ->
  log_results self = [].
Proof.
  intros Hl Hin. destruct (log_results self) as [| r rs] eqn:E; [reflexivity |].
  exfalso.
  assert (Hne : log_results self <> []) by (rewrite E; discriminate).
  rewrite <- E in Hl. pose proof (evidence_bounds self Hl Hne) as [Hlo _].
  assert (Hev : (get_evidence_availability_score self <? num_lit 0.60)%num = false).
  { q_ops. apply Qltb_ge. lra. }
  unfold _prioritize_gaps in Hin. rewrite Hev in Hin. cbv zeta in Hin.
  cbn [fst] in Hin.
  repeat match type of Hin with
         | context [if ?b then _ else _] => destruct b
         end;
    unfold append, insufficient_log_coverage in Hin; cbn [app In] in Hin;
    intuition discriminate.
Qed.




(** * The timeline recommendations *)

(** What [_generate_recommendations] does with the timeline recommendations:
    they are in the list exactly when the session stores no assessment, or
    stores one whose timeline score is below 0.70. *)
Lemma timeline_recommendations_follow_stored_assessment (self : Session Q) :
  incl timeline_recommendations (_generate_recommendations self) <->
  match assessment self with
  | Some a => ReadinessAssessment.timeline_reconstruction a < 0.70
  | None => True
  end.
Proof.
  unfold _generate_recommendations, timeline_recommendations.
  destruct (assessment self) as [a |].
  - q_ops. destruct (Qltb (ReadinessAssessment.timeline_reconstruction a) 0.70) eqn:E.
    + apply Qltb_lt in E. split; [intros _; exact E | intros _].
      destruct (profile self) as [p |]; case_ifs;
        unfold append; cbn [app firstn];
        intros x [<- | [<- | []]]; cbn [In]; auto 20.
    + apply Qltb_ge in E. split; [| intros H; lra]. intros H. exfalso.
      assert (Hin : In "Improve log correlation and timestamp synchronization"
                       ["Improve log correlation and timestamp synchronization";
                        "Deploy network traffic analysis (NTA) for comprehensive visibility"])
        by (left; reflexivity).
      apply H in Hin. revert Hin.
      destruct (profile self) as [p |]; case_ifs;
        unfold append; cbn [app firstn In]; intuition discriminate.
  - q_ops. change (Qltb 0.0 0.70) with true. cbv iota.
    split; [intros _; exact I | intros _].
    destruct (profile self) as [p |]; case_ifs;
      unfold append; cbn [app firstn];
      intros x [<- | [<- | []]]; cbn [In]; auto 20.
Qed.

(** C2 fails on the code.  In a run that reaches the report with a timeline
    score of 0.86, not below 0.70, the assessment still carries the two
    timeline recommendations: [_generate_recommendations] reads the score from
    [self.assessment], which [generate_assessment] sets only afterwards. *)
Theorem timeline_recommendations_despite_score :
  (let a : ReadinessAssessment.t Q :=
     fst (generate_assessment "2024-01-02T00:00:00" session_before_report) in
   ReadinessAssessment.timeline_reconstruction a == 0.86 /\
   ~ ReadinessAssessment.timeline_reconstruction a < 0.70 /\
   incl timeline_recommendations (ReadinessAssessment.recommendations a)) /\
  (let a : ReadinessAssessment.t float :=
     fst (generate_assessment "2024-01-02T00:00:00" session_before_report) in
   (ReadinessAssessment.timeline_reconstruction a <? 0.70)%float = false /\
   incl timeline_recommendations (ReadinessAssessment.recommendations a)).
Proof.
  split.
  - vm_compute. split; [reflexivity |]. split; [discriminate |].
    intros x [<- | [<- | []]]; auto 10.
  - vm_compute. split; [reflexivity |].
    intros x [<- | [<- | []]]; auto 10.
Qed.

(** * Answers typed by the operator *)

(** X1: where [lower] leaves "y" and "n" as they are and makes no string
    empty, as Python's does, [get_yes_no] always returns a truth value: a blank
    answer (empty once stripped) gives the default, and any other answer gives
    true exactly when, stripped and in lower case, it is one of y, yes, 1,
    true, whatever the default. *)
Theorem get_yes_no_answers {B : Builtins} (typed : string) (default : bool) :
  lower "y" = "y" ->
  lower "n" = "n" ->
  (forall s, lower s = EmptyString -> s = EmptyString) ->
  get_yes_no typed default
  = Some (match strip typed with
          | EmptyString => default
          | _ => existsb (String.eqb (lower (strip typed))) ["y"; "yes"; "1"; "true"]
          end).
Proof.
  intros Hy Hn Hne. unfold get_yes_no, get_input.
  destruct (strip typed) as [| c s] eqn:E.
  - destruct default; [rewrite Hy | rewrite Hn]; reflexivity.
  - destruct (lower (String c s)) as [| c' s'] eqn:El; [| reflexivity].
    apply Hne in El. discriminate El.
Qed.

Lemma ascii_lower_not_empty (s : string) : ascii_lower s = EmptyString -> s = EmptyString.
Proof. destruct s; [reflexivity | discriminate]. Qed.

Lemma get_yes_no_answers_witness :
  get_yes_no (B := ascii_builtins) " Yes " false = Some true /\
  get_yes_no (B := ascii_builtins) "maybe" true = Some false /\
  get_yes_no (B := ascii_builtins) "  " true = Some true.
Proof.
  split; [| split];
    refine (eq_trans (get_yes_no_answers (B := ascii_builtins) _ _ eq_refl eq_refl
                        ascii_lower_not_empty) _);
    reflexivity.
Defined.

(** * The profile built from typed answers *)

Lemma split_not_empty (sep : ascii) (s : string) : split sep s <> [].
Proof.
  induction s as [| c s IH]; cbn [split]; [discriminate |].
  destruct (Ascii.eqb c sep); [discriminate |].
  destruct (split sep s); [congruence | discriminate].
Qed.

Lemma split_length (s : string) : length (split "," s) = S (commas s).
Proof.
  induction s as [| c s IH]; cbn [split commas]; [reflexivity |].
  destruct (Ascii.eqb c ","); cbn [length Nat.add].
  - rewrite IH. reflexivity.
  - destruct (split "," s) as [| piece pieces]; [discriminate IH |]. exact IH.
Qed.

(** Joining the pieces with the separator gives the string back. *)
Lemma split_concat (s : string) : String.concat "," (split "," s) = s.
Proof.
  induction s as [| c s IH]; [reflexivity |]. cbn [split].
  destruct (split "," s) as [| piece pieces] eqn:Es;
    [exfalso; exact (split_not_empty "," s Es) |].
  destruct (Ascii.eqb c ",") eqn:E.
  - apply Ascii.eqb_eq in E. subst c.
    change (String.concat "," (EmptyString :: piece :: pieces))
      with (String "," (String.concat "," (piece :: pieces))).
    rewrite IH. reflexivity.
  - destruct pieces as [| piece' pieces].
    + cbn [String.concat] in *. rewrite IH. reflexivity.
    + change (String.concat "," (String c piece :: piece' :: pieces))
        with (String c (String.concat "," (piece :: piece' :: pieces))).
      rewrite IH. reflexivity.
Qed.

Lemma typed_list_effect {B : Builtins} (typed default : string) :
  default <> EmptyString ->
  exists value,
    value <> EmptyString /\
    (strip typed = EmptyString -> value = default) /\
    (strip typed <> EmptyString -> value = strip typed) /\
    typed_list typed default = Some (map strip (split "," value)).
Proof.
  intros Hd. unfold typed_list, get_input.
  destruct (strip typed) as [| c v] eqn:E.
  - exists default. repeat split; auto; congruence.
  - exists (String c v). repeat split; auto; (discriminate || congruence).
Qed.

Lemma typed_int_effect {B : Builtins} (typed default : string) :
  typed_int typed default
  = int_of_str match strip typed with
               | EmptyString => default
               | value => value
               end.
Proof.
  unfold typed_int, get_input. destruct (strip typed); reflexivity.
Qed.

Lemma typed_profile_shape {B : Builtins} (op : Operator.t) :
  let endpoints_count :=
    int_of_str match strip (Operator.endpoints_count op) with
               | EmptyString => "100"
               | value => value
               end in
  let retention_days :=
    int_of_str match strip (Operator.retention_days op) with
               | EmptyString => "90"
               | value => value
               end in
  (typed_profile op = None <-> endpoints_count = None \/ retention_days = None) /\
  (forall p,
      typed_profile op = Some p ->
      EnvironmentProfile.org_name p <> EmptyString /\
      EnvironmentProfile.platforms p <> [] /\
      EnvironmentProfile.network_segments p <> [] /\
      EnvironmentProfile.security_tools p <> [] /\
      EnvironmentProfile.log_sources p <> [] /\
      Some (EnvironmentProfile.endpoints_count p) = endpoints_count /\
      Some (EnvironmentProfile.retention_days p) = retention_days /\
      (strip (Operator.log_sources op) = EmptyString ->
       EnvironmentProfile.log_sources p = map strip ["Windows Event Logs"; "Syslog"]) /\
      (strip (Operator.log_sources op) <> EmptyString ->
       length (EnvironmentProfile.log_sources p)
       = S (commas (strip (Operator.log_sources op))))).
Proof.
  intros endpoints_count retention_days. subst endpoints_count retention_days.
  unfold typed_profile.
  rewrite <- (typed_int_effect (Operator.endpoints_count op) "100").
  rewrite <- (typed_int_effect (Operator.retention_days op) "90").
  destruct (typed_list_effect (Operator.platforms op) "Windows,Linux")
    as (v1 & _ & _ & _ & ->); [discriminate |].
  destruct (typed_list_effect (Operator.network_segments op) "DMZ,Internal")
    as (v2 & _ & _ & _ & ->); [discriminate |].
  destruct (typed_list_effect (Operator.security_tools op) "EDR,SIEM,Firewall")
    as (v3 & _ & _ & _ & ->); [discriminate |].
  destruct (typed_list_effect (Operator.log_sources op) "Windows Event Logs,Syslog")
    as (v4 & _ & Hblank & Htyped & ->); [discriminate |].
  assert (Hmap : forall v, map strip (split "," v) <> []).
  { intros v H. apply map_eq_nil in H. exact (split_not_empty "," v H). }
  unfold get_input.
  destruct (typed_int (Operator.endpoints_count op) "100") as [e |];
    destruct (typed_int (Operator.retention_days op) "90") as [r |];
    destruct (strip (Operator.org_name op)) as [| c org];
    (split;
     [ split; [intros H | intros [H | H]]; (discriminate H || auto)
     | intros p Hp; try discriminate Hp; injection Hp as <-;
       cbn [EnvironmentProfile.org_name EnvironmentProfile.platforms
            EnvironmentProfile.network_segments EnvironmentProfile.security_tools
            EnvironmentProfile.log_sources EnvironmentProfile.retention_days
            EnvironmentProfile.endpoints_count];
       (split; [discriminate |]);
       (repeat (split; [apply Hmap |]));
       (split; [reflexivity |]);
       (split; [reflexivity |]);
       (split;
        [ intros Hb; rewrite (Hblank Hb); reflexivity
        | intros Ht; rewrite (Htyped Ht), length_map; apply split_length ]) ]).
Qed.

(** X2: [collect_environment_data] ends with an exception exactly when [int]
    rejects one of the two typed counts (the endpoint count and the retention
    period, each replaced by its default, "100" and "90", when blank once
    stripped).  Otherwise it builds a profile whose counts are what [int]
    returned, with a non-empty organisation name and at least one platform,
    network segment, security tool and log source: a blank answer for the log
    sources gives the two default names, stripped, and any other answer gives
    one entry more than it has commas, empty entries included. *)
Theorem typed_profile_is_complete {B : Builtins} (op : Operator.t) :
  let endpoints_count :=
    int_of_str match strip (Operator.endpoints_count op) with
               | EmptyString => "100"
               | value => value
               end in
  let retention_days :=
    int_of_str match strip (Operator.retention_days op) with
               | EmptyString => "90"
               | value => value
               end in
  (typed_profile op = None <-> endpoints_count = None \/ retention_days = None) /\
  (forall p,
      typed_profile op = Some p ->
      EnvironmentProfile.org_name p <> EmptyString /\
      EnvironmentProfile.platforms p <> [] /\
      EnvironmentProfile.network_segments p <> [] /\
      EnvironmentProfile.security_tools p <> [] /\
      EnvironmentProfile.log_sources p <> [] /\
      Some (EnvironmentProfile.endpoints_count p) = endpoints_count /\
      Some (EnvironmentProfile.retention_days p) = retention_days /\
      (strip (Operator.log_sources op) = EmptyString ->
       EnvironmentProfile.log_sources p = map strip ["Windows Event Logs"; "Syslog"]) /\
      (strip (Operator.log_sources op) <> EmptyString ->
       length (EnvironmentProfile.log_sources p)
       = S (commas (strip (Operator.log_sources op))))).
Proof. exact (typed_profile_shape op). Qed.

Lemma typed_profile_is_complete_witness :
  exists p,
    typed_profile (B := ascii_builtins) operator_of_defaults = Some p /\
    EnvironmentProfile.log_sources p = ["Windows Event Logs"; "Syslog"] /\
    EnvironmentProfile.endpoints_count p = 100%Z /\
    EnvironmentProfile.retention_days p = 90%Z.
Proof.
  destruct (typed_profile (B := ascii_builtins) operator_of_defaults) as [p |] eqn:E;
    [| discriminate E].
  destruct (typed_profile_is_complete (B := ascii_builtins) operator_of_defaults)
    as (_ & H).
  destruct (H p E) as (_ & _ & _ & _ & _ & He & Hr & Hblank & _).
  exists p. split; [reflexivity |]. split; [exact (Hblank eq_refl) |].
  split; [injection He as He; exact He | injection Hr as Hr; exact Hr].
Defined.

(** * Issues and recommendations of the log scorer *)

Lemma log_issues_at_carrier {R : Type} {N : Number R}
    (environment : EnvironmentProfile.t) (source : string) :
  (num_lit 0.85 <? num_lit 0.9)%num = true ->
  (num_lit 0.75 <? num_lit 0.9)%num = true ->
  let days := EnvironmentProfile.retention_days environment in
  let r : LogAnalysisResult.t R := _analyze_log_source environment source in
  LogAnalysisResult.available r = true /\
  LogAnalysisResult.source_name r = source /\
  length (LogAnalysisResult.issues r) = length (LogAnalysisResult.recommendations r) /\
  (1 <= length (LogAnalysisResult.issues r) <= 3)%nat /\
  In "Potential timestamp synchronization issues detected" (LogAnalysisResult.issues r) /\
  LogAnalysisResult.retention_compliance r = (90 <=? days)%Z /\
  (In ("Retention period (" ++ str_of_int days ++ " days) below recommended 90 days")
      (LogAnalysisResult.issues r) <-> (days < 90)%Z).
Proof.
  intros H85 H75 days r. subst r. unfold _analyze_log_source. fold days.
  rewrite Z.geb_leb.
  destruct (90 <=? days)%Z eqn:E;
    [apply Z.leb_le in E | apply Z.leb_gt in E];
    destruct (str_in "Windows" source || str_in "Syslog" source);
    rewrite ?H85, ?H75;
    destruct (str_in "Application" source || str_in "Custom" source);
    cbn [negb LogAnalysisResult.available LogAnalysisResult.source_name
         LogAnalysisResult.issues LogAnalysisResult.recommendations
         LogAnalysisResult.retention_compliance];
    unfold append; cbn [app length In];
    (repeat match goal with |- _ /\ _ => split end);
    try reflexivity; try lia; auto 6.
  all: split; intros H; try lia; try exact E; auto.
  all: exfalso;
    repeat match goal with
           | H : _ \/ _ |- _ => destruct H as [H | H]
           | H : False |- _ => destruct H
           | H : _ = _ |- _ => discriminate H
           end.
Qed.

(** X3: over the rationals and in binary64, every log result is available and
    named after its source, pairs each issue with a recommendation, has between
    one and three issues, always has the timestamp synchronization issue, is
    retention compliant exactly from 90 days up, and has the retention issue,
    which quotes the number of days, exactly below 90 days. *)
Theorem log_issues_and_recommendations (environment : EnvironmentProfile.t)
    (source : string) :
  let days := EnvironmentProfile.retention_days environment in
  let retention_issue :=
    "Retention period (" ++ str_of_int days ++ " days) below recommended 90 days" in
  (let r : LogAnalysisResult.t Q := _analyze_log_source environment source in
   LogAnalysisResult.available r = true /\
   LogAnalysisResult.source_name r = source /\
   length (LogAnalysisResult.issues r) = length (LogAnalysisResult.recommendations r) /\
   (1 <= length (LogAnalysisResult.issues r) <= 3)%nat /\
   In "Potential timestamp synchronization issues detected" (LogAnalysisResult.issues r) /\
   LogAnalysisResult.retention_compliance r = (90 <=? days)%Z /\
   (In retention_issue (LogAnalysisResult.issues r) <-> (days < 90)%Z)) /\
  (let r : LogAnalysisResult.t float := _analyze_log_source environment source in
   LogAnalysisResult.available r = true /\
   LogAnalysisResult.source_name r = source /\
   length (LogAnalysisResult.issues r) = length (LogAnalysisResult.recommendations r) /\
   (1 <= length (LogAnalysisResult.issues r) <= 3)%nat /\
   In "Potential timestamp synchronization issues detected" (LogAnalysisResult.issues r) /\
   LogAnalysisResult.retention_compliance r = (90 <=? days)%Z /\
   (In retention_issue (LogAnalysisResult.issues r) <-> (days < 90)%Z)).
Proof.
  intros days retention_issue. split.
  - apply (@log_issues_at_carrier Q _ environment source); reflexivity.
  - apply (@log_issues_at_carrier float _ environment source); reflexivity.
Qed.

(** * The log analysis replaces its results *)

Section LogAnalysis.

Context {R : Type} {N : Number R}.

(** X4: at every carrier, without a profile [analyze_logs] changes nothing;
    with one, it leaves one result per log source of the profile, named after
    the sources in their order, whatever results were stored before, so that a
    second analysis changes nothing more. *)
Theorem analyze_logs_replaces (self : Session R) :
  (profile self = None -> analyze_logs self = self) /\
  (forall p,
      profile self = Some p ->
      map LogAnalysisResult.source_name (log_results (analyze_logs self))
      = EnvironmentProfile.log_sources p /\
      length (log_results (analyze_logs self))
      = length (EnvironmentProfile.log_sources p) /\
      Forall (fun r => LogAnalysisResult.retention_compliance r
                       = (90 <=? EnvironmentProfile.retention_days p)%Z)
             (log_results (analyze_logs self))) /\
  analyze_logs (analyze_logs self) = analyze_logs self.
Proof.
  unfold analyze_logs. split; [| split].
  - intros H. rewrite H. reflexivity.
  - intros p H. rewrite H. cbn [log_results set_log_results].
    split; [| split].
    + rewrite map_map. cbn. unfold _analyze_log_source.
      induction (EnvironmentProfile.log_sources p) as [| source sources IH];
        [reflexivity |].
      cbn [map]. f_equal; [| exact IH].
      case_ifs; reflexivity.
    + apply length_map.
    + apply Forall_forall. intros r Hin. apply in_map_iff in Hin.
      destruct Hin as (source & <- & _). unfold _analyze_log_source.
      rewrite Z.geb_leb. case_ifs; reflexivity.
  - destruct (profile self) as [p |] eqn:E.
    + cbn [profile set_log_results]. rewrite E. reflexivity.
    + rewrite E. reflexivity.
Qed.

End LogAnalysis.

Lemma analyze_logs_replaces_witness :
  map LogAnalysisResult.source_name
      (log_results (analyze_logs (@session_with_logs Q _)))
  = ["Windows Event Logs"].
Proof.
  destruct (analyze_logs_replaces (@session_with_logs Q _)) as (_ & H & _).
  destruct (H (sample_profile 90 "Windows Event Logs") eq_refl) as (Hn & _).
  exact Hn.
Defined.

(** * The lists of the playbook scorer *)

Section PlaybookLists.

Context {R : Type} {N : Number R}.

(** X5: at every carrier, a playbook result is named after the playbook, never
    has an empty list of missing elements (the fallback entry is there exactly
    when no rule of the scorer matched the name), lists an unrealistic
    assumption exactly for the names that contain "Data Breach", an ambiguous
    step exactly for the names that a malware or phishing rule matches, and
    has one recommendation per matching rule followed by the two general
    ones. *)
Theorem playbook_lists (playbook_name : string) :
  let r : PlaybookAnalysisResult.t R := _evaluate_playbook playbook_name in
  let malware := str_in "Malware" playbook_name || str_in "Ransomware" playbook_name in
  let phishing := str_in "Phishing" playbook_name in
  let breach := str_in "Data Breach" playbook_name in
  PlaybookAnalysisResult.playbook_name r = playbook_name /\
  PlaybookAnalysisResult.missing_elements r <> [] /\
  (In "Documentation requirements not specified" (PlaybookAnalysisResult.missing_elements r)
   <-> malware || phishing || breach = false) /\
  (PlaybookAnalysisResult.unrealistic_assumptions r <> [] <-> breach = true) /\
  (PlaybookAnalysisResult.ambiguous_steps r <> [] <-> malware || phishing = true) /\
  length (PlaybookAnalysisResult.recommendations r)
  = (length (filter id [malware; phishing; breach]) + 2)%nat /\
  skipn (length (filter id [malware; phishing; breach]))
        (PlaybookAnalysisResult.recommendations r)
  = ["Conduct tabletop exercise to validate procedures";
     "Define clear roles and escalation criteria"].
Proof.
  intros r malware phishing breach. subst r malware phishing breach.
  unfold _evaluate_playbook.
  destruct (str_in "Malware" playbook_name || str_in "Ransomware" playbook_name);
    destruct (str_in "Phishing" playbook_name);
    destruct (str_in "Data Breach" playbook_name);
    cbn [PlaybookAnalysisResult.playbook_name PlaybookAnalysisResult.missing_elements
         PlaybookAnalysisResult.unrealistic_assumptions
         PlaybookAnalysisResult.ambiguous_steps PlaybookAnalysisResult.recommendations
         orb filter id length];
    unfold append; cbn [app length skipn Nat.add];
    concrete_facts.
Qed.

End PlaybookLists.

(** * The ranges of the playbook scores *)

Lemma playbook_scored_ranges (r : PlaybookAnalysisResult.t Q) :
  playbook_scored r ->
  (0.60 <= PlaybookAnalysisResult.clarity_score r <= 0.75) /\
  (0.55 <= PlaybookAnalysisResult.feasibility_score r <= 0.70) /\
  (0.52 <= PlaybookAnalysisResult.completeness_score r <= 0.72).
Proof.
  intros (playbook_name & ->). unfold _evaluate_playbook.
  destruct (str_in "Malware" playbook_name || str_in "Ransomware" playbook_name);
    destruct (str_in "Phishing" playbook_name);
    destruct (str_in "Data Breach" playbook_name);
    cbn [PlaybookAnalysisResult.clarity_score PlaybookAnalysisResult.feasibility_score
         PlaybookAnalysisResult.completeness_score];
    repeat split; apply Qle_bool_imp_le; vm_compute; reflexivity.
Qed.

(** X6: for every playbook name the deductions never reach the floor at
    [0.0]: clarity is at least [0.75 - 0.05 - 0.10] and at most 0.75,
    feasibility at least [0.70 - 0.15] and at most 0.70, completeness at least
    [0.72 - 0.08 - 0.12] and at most 0.72.  Over the rationals the lower bounds
    are 0.60, 0.55 and 0.52; in binary64 they are the doubles 0.6,
    0.5499999999999999 (one step below the double of 0.55) and 0.52. *)
Theorem playbook_score_ranges (playbook_name : string) :
  (let r : PlaybookAnalysisResult.t Q := _evaluate_playbook playbook_name in
   (0.60 <= PlaybookAnalysisResult.clarity_score r <= 0.75) /\
   (0.55 <= PlaybookAnalysisResult.feasibility_score r <= 0.70) /\
   (0.52 <= PlaybookAnalysisResult.completeness_score r <= 0.72)) /\
  (let r : PlaybookAnalysisResult.t float := _evaluate_playbook playbook_name in
   (0.75 - 0.05 - 0.10 <=? PlaybookAnalysisResult.clarity_score r)%float = true /\
   (PlaybookAnalysisResult.clarity_score r <=? 0.75)%float = true /\
   (0.70 - 0.15 <=? PlaybookAnalysisResult.feasibility_score r)%float = true /\
   (PlaybookAnalysisResult.feasibility_score r <=? 0.70)%float = true /\
   (0.72 - 0.08 - 0.12 <=? PlaybookAnalysisResult.completeness_score r)%float = true /\
   (PlaybookAnalysisResult.completeness_score r <=? 0.72)%float = true) /\
  ((0.75 - 0.05 - 0.10)%float = 0.6%float /\
   (0.70 - 0.15)%float = 0.5499999999999999%float /\
   (0.5499999999999999 <? 0.55)%float = true /\
   (0.72 - 0.08 - 0.12)%float = 0.52%float).
Proof.
  split; [| split].
  - intros r. apply playbook_scored_ranges. exists playbook_name. reflexivity.
  - intros r. subst r. unfold _evaluate_playbook.
    destruct (str_in "Malware" playbook_name || str_in "Ransomware" playbook_name);
      destruct (str_in "Phishing" playbook_name);
      destruct (str_in "Data Breach" playbook_name);
      cbn [PlaybookAnalysisResult.clarity_score PlaybookAnalysisResult.feasibility_score
           PlaybookAnalysisResult.completeness_score];
      repeat split; vm_compute; reflexivity.
  - vm_compute. repeat split.
Qed.

(** * The readiness level follows the score *)

(** X7: over the rationals, a higher overall score never gives a lower
    readiness level. *)
Theorem readiness_level_monotone (score1 score2 : Q) :
  score1 <= score2 ->
  (level_rank (_determine_readiness_level score1)
   <= level_rank (_determine_readiness_level score2))%nat.
Proof.
  intros H. unfold _determine_readiness_level. q_ops.
  repeat match goal with
         | |- context [Qle_bool ?a ?b] =>
             let E := fresh "E" in
             destruct (Qle_bool a b) eqn:E;
             [apply Qle_bool_iff in E | apply Qle_bool_false in E]
         end;
    cbn [level_rank]; try lia; exfalso; lra.
Qed.

Lemma readiness_level_monotone_witness :
  (level_rank (@_determine_readiness_level Q _ 0.5%Q)
   <= level_rank (@_determine_readiness_level Q _ 0.8%Q))%nat.
Proof.
  apply (readiness_level_monotone 0.5 0.8). discriminate.
Defined.

(** * The overall score *)

(** X8: over the rationals and for every session, the overall score of the
    generated assessment lies between any two bounds that enclose its four
    component scores: the weights 0.30, 0.25, 0.25 and 0.20 make it a mean of
    them. *)
Theorem overall_score_is_a_mean (now : string) (self : Session Q) (lo hi : Q) :
  let a := fst (generate_assessment now self) in
  lo <= ReadinessAssessment.evidence_availability a <= hi ->
  lo <= ReadinessAssessment.playbook_effectiveness a <= hi ->
  lo <= ReadinessAssessment.policy_alignment a <= hi ->
  lo <= ReadinessAssessment.timeline_reconstruction a <= hi ->
  lo <= ReadinessAssessment.overall_score a <= hi.
Proof.
  intros a. subst a.
  destruct (generate_assessment_fields now self) as (-> & -> & -> & -> & -> & _).
  intros He Hp Ha Ht. q_ops. lra.
Qed.

Lemma overall_score_is_a_mean_witness :
  0 <= ReadinessAssessment.overall_score
         (fst (generate_assessment "2024-01-02T00:00:00" (@session_before_report Q _)))
    <= 1.
Proof.
  apply (overall_score_is_a_mean "2024-01-02T00:00:00" session_before_report 0 1);
    vm_compute; split; discriminate.
Defined.

(** * The highest readiness level *)

Lemma playbook_effectiveness_at_most (self : Session Q) :
  Forall playbook_scored (playbook_results self) ->
  0 <= get_playbook_effectiveness_score self <= (217 # 300).
Proof.
  intros H. unfold get_playbook_effectiveness_score.
  destruct (playbook_results self) as [| r rs] eqn:E.
  - q_ops. split; apply Qle_bool_imp_le; reflexivity.
  - apply guarded_mean_bounds; [| discriminate].
    eapply Forall_impl; [| exact H].
    intros r' Hr'. q_ops.
    destruct (playbook_scored_ranges r' Hr') as ((Hc1 & Hc2) & (Hf1 & Hf2) & (Hm1 & Hm2)).
    assert (H3 : 0 < inject_Z 3) by reflexivity.
    split.
    + apply Qle_shift_div_l; [exact H3 |]. change (inject_Z 3) with 3. lra.
    + apply Qle_shift_div_r; [exact H3 |]. change (inject_Z 3) with 3. lra.
Qed.

Lemma assessment_ceiling {B : Builtins} (self : Session Q) :
  session_invariant self ->
  forall now,
    let a := fst (generate_assessment now self) in
    ReadinessAssessment.overall_score a <= (5057 # 6000) /\
    ReadinessAssessment.evidence_availability a <= 0.8 /\
    ReadinessAssessment.playbook_effectiveness a <= (217 # 300) /\
    ReadinessAssessment.timeline_reconstruction a <= 0.86 /\
    ReadinessAssessment.readiness_level a <> "Excellent".
Proof.
  intros (Hl & Hp & Hps & Hts & _) now a.
  pose proof (evidence_unit self Hl) as [He0 _].
  assert (He : get_evidence_availability_score self <= 0.8).
  { destruct (log_results self) as [| r rs] eqn:E.
    - unfold get_evidence_availability_score. rewrite E. q_ops.
      apply Qle_bool_imp_le. reflexivity.
    - rewrite <- E in Hl. apply evidence_bounds; [exact Hl | rewrite E; discriminate]. }
  pose proof (playbook_effectiveness_at_most self Hp) as [Hp0 Hp1].
  pose proof (policy_alignment_unit self Hps Hts) as [Ha0 Ha1].
  assert (Ht : _calculate_timeline_score self (get_evidence_availability_score self)
                 (get_policy_alignment_score self) <= 0.86).
  { unfold _calculate_timeline_score.
    destruct (profile self) as [p |]; case_ifs; q_ops; lra. }
  assert (Ho : ReadinessAssessment.overall_score a <= (5057 # 6000)).
  { subst a.
    destruct (generate_assessment_fields now self) as (_ & _ & _ & _ & -> & _).
    q_ops. lra. }
  subst a. split; [exact Ho |].
  destruct (generate_assessment_fields now self) as (E1 & E2 & _ & E4 & _).
  rewrite E1, E2, E4.
  split; [exact He |]. split; [exact Hp1 |]. split; [exact Ht |].
  unfold generate_assessment in *. destruct (_prioritize_gaps self) as [[c h] m].
  cbn [fst ReadinessAssessment.readiness_level ReadinessAssessment.overall_score] in *.
  unfold _determine_readiness_level. q_ops.
  destruct (Qle_bool 0.85 _) eqn:E.
  - apply Qle_bool_iff in E. exfalso. lra.
  - case_ifs; discriminate.
Qed.

(** X9: over the rationals, in every session that a run reaches, the overall
    score of the generated assessment is at most 0.843, below the 0.85 that
    Excellent needs: the evidence score is at most 0.81, the playbook
    effectiveness at most 0.73 and the timeline score at most 0.87.  So the
    readiness level is never Excellent; High is the best.  (The exact maxima
    are 0.8, 217/300, 0.86 and 5057/6000; binary64 rounding can pass them in
    the last digits, and stays within the bounds stated.) *)
Theorem excellent_is_out_of_reach {B : Builtins} (self : Session Q) :
  reachable self ->
  forall now,
    let a := fst (generate_assessment now self) in
    ReadinessAssessment.overall_score a <= 0.843 /\
    ReadinessAssessment.evidence_availability a <= 0.81 /\
    ReadinessAssessment.playbook_effectiveness a <= 0.73 /\
    ReadinessAssessment.timeline_reconstruction a <= 0.87 /\
    ReadinessAssessment.readiness_level a <> "Excellent".
Proof.
  intros Hr now a.
  destruct (assessment_ceiling self (reachable_invariant self Hr) now)
    as (Ho & He & Hp & Ht & Hl).
  fold a in Ho, He, Hp, Ht, Hl.
  assert (H1 : (5057 # 6000) <= 0.843) by (apply Qle_bool_imp_le; reflexivity).
  assert (H2 : (217 # 300) <= 0.73) by (apply Qle_bool_imp_le; reflexivity).
  split; [| split; [| split; [| split]]].
  - exact (Qle_trans _ _ _ Ho H1).
  - lra.
  - exact (Qle_trans _ _ _ Hp H2).
  - lra.
  - exact Hl.
Qed.

Lemma session_at_best_reachable {B : Builtins} : reachable session_at_best.
Proof.
  unfold session_at_best.
  eapply reachable_step; [| apply step_new_AssessmentModule].
  eapply reachable_step; [| apply step_evaluate_readiness].
  eapply reachable_step; [| apply step_evaluate_playbooks].
  exact session_with_logs_reachable.
Qed.

Lemma excellent_is_out_of_reach_witness :
  let a := fst (generate_assessment "2024-01-02T00:00:00" session_at_best) in
  ReadinessAssessment.overall_score a <= 0.843 /\
  ReadinessAssessment.readiness_level a = "High".
Proof.
  split; [| reflexivity].
  destruct (excellent_is_out_of_reach (B := ascii_builtins) session_at_best
              session_at_best_reachable "2024-01-02T00:00:00") as (H & _).
  exact H.
Defined.

(** * What the policy and tool evaluation keeps and what it overwrites *)

Section Accumulation.

Context {R : Type} {N : Number R}.

Lemma policies_loop_from_empty (answers : nat -> PolicyAnswer)
    (todo : list (string * string)) :
  forall i (policy_scores : list R) recommendations,
    policies_loop answers i todo policy_scores recommendations
    = ((policy_scores ++ fst (policies_loop answers i todo [] []))%list,
       (recommendations ++ snd (policies_loop answers i todo [] []))%list).
Proof.
  induction todo as [| [policy_name description] todo IH];
    intros i policy_scores recommendations; cbn [policies_loop].
  - cbn [fst snd]. rewrite !app_nil_r. reflexivity.
  - destruct (answers i) as [| documented tested].
    + rewrite IH. rewrite (IH (S i) (append [] _) (append [] _)).
      cbn [fst snd]. unfold append. rewrite <- !app_assoc. reflexivity.
    + destruct tested;
        cbn [negb]; rewrite IH; rewrite (IH (S i) (append [] _) _);
        cbn [fst snd]; unfold append; rewrite <- ?app_assoc; rewrite ?app_nil_l;
        reflexivity.
Qed.

Lemma tools_loop_from_empty (answers : nat -> bool * bool) (tools : list string) :
  forall i (tool_scores : list R) recommendations,
    tools_loop answers i tools tool_scores recommendations
    = ((tool_scores ++ fst (tools_loop answers i tools [] []))%list,
       (recommendations ++ snd (tools_loop answers i tools [] []))%list).
Proof.
  induction tools as [| tool tools IH];
    intros i tool_scores recommendations; cbn [tools_loop].
  - cbn [fst snd]. rewrite !app_nil_r. reflexivity.
  - destruct (answers i) as [operational integrated].
    destruct integrated;
      cbn [negb]; rewrite IH; rewrite (IH (S i) (append [] _) _);
      cbn [fst snd]; unfold append; rewrite <- ?app_assoc; rewrite ?app_nil_l;
      reflexivity.
Qed.


Lemma bottlenecks_loop_from_empty (answers : nat -> bool)
    (todo : list (string * string)) :
  forall i found recommendations,
    bottlenecks_loop answers i todo found recommendations
    = ((found ++ fst (bottlenecks_loop answers i todo [] []))%list,
       (recommendations ++ snd (bottlenecks_loop answers i todo [] []))%list).
Proof.
  induction todo as [| [bottleneck description] todo IH];
    intros i found recommendations; cbn [bottlenecks_loop].
  - cbn [fst snd]. rewrite !app_nil_r. reflexivity.
  - destruct (answers i).
    + case_ifs; rewrite IH;
        match goal with
        | |- _ = (_ ++ fst (bottlenecks_loop _ _ _ ?f ?r), _)%list =>
            rewrite (IH (S i) f r)
        end;
        cbn [fst snd]; unfold append; rewrite <- ?app_assoc; rewrite ?app_nil_l;
        reflexivity.
    + apply IH.
Qed.

Lemma bottlenecks_loop_counts (answers : nat -> bool) (todo : list (string * string)) :
  Forall (fun entry =>
            str_in "Manual log" (fst entry) || str_in "Approval" (fst entry)
            || str_in "Tool fragmentation" (fst entry) || str_in "Expertise" (fst entry)
            || str_in "Communication" (fst entry) = true) todo ->
  forall i,
    length (fst (bottlenecks_loop answers i todo [] []))
    = length (filter id (map answers (seq i (length todo)))) /\
    length (snd (bottlenecks_loop answers i todo [] []))
    = length (filter id (map answers (seq i (length todo)))).
Proof.
  induction 1 as [| [bottleneck description] todo Hm _ IH]; intros i.
  - split; reflexivity.
  - cbn [bottlenecks_loop length seq map filter]. cbn [fst] in Hm.
    destruct (answers i); cbn [id]; [| apply IH].
    rewrite bottlenecks_loop_from_empty. cbn [fst snd].
    destruct (IH (S i)) as [IHf IHr].
    destruct (str_in "Manual log" bottleneck);
      [| destruct (str_in "Approval" bottleneck);
         [| destruct (str_in "Tool fragmentation" bottleneck);
            [| destruct (str_in "Expertise" bottleneck);
               [| destruct (str_in "Communication" bottleneck);
                  [| discriminate Hm]]]]];
      unfold append; rewrite !length_app; cbn [app length];
      rewrite IHf, IHr; split; reflexivity.
Qed.

(** X10: at every carrier, [_identify_bottlenecks] keeps the bottlenecks and
    recommendations recorded before and appends, for the bottlenecks that the
    operator confirms among the five, one description and one recommendation
    each. *)
Theorem confirmed_bottlenecks (answers : nat -> bool) (self : Session R) :
  let self' := _identify_bottlenecks answers self in
  let confirmed := length (filter id (map answers (seq 0 5))) in
  exists found recommendations,
    bottlenecks self' = (bottlenecks self ++ found)%list /\
    policy_recommendations self' = (policy_recommendations self ++ recommendations)%list /\
    length found = confirmed /\
    length recommendations = confirmed.
Proof.
  intros self' confirmed. subst self' confirmed. unfold _identify_bottlenecks.
  rewrite bottlenecks_loop_from_empty.
  exists (fst (bottlenecks_loop answers 0 potential_bottlenecks [] [])),
         (snd (bottlenecks_loop answers 0 potential_bottlenecks [] [])).
  cbn [bottlenecks policy_recommendations set_bottlenecks set_policy_recommendations].
  split; [reflexivity |]. split; [reflexivity |].
  apply (bottlenecks_loop_counts answers potential_bottlenecks).
  repeat constructor.
Qed.

Lemma _evaluate_policies_effect (answers : nat -> PolicyAnswer) (self : Session R) :
  _evaluate_policies answers self
  = set_policy_score
      (match fst (policies_loop answers 0 policies [] []) with
       | [] => num_lit 0.0
       | _ => (sum (fst (policies_loop answers 0 policies [] []))
               / len (fst (policies_loop answers 0 policies [] [])))%num
       end)
      (set_policy_recommendations
         (policy_recommendations self ++ snd (policies_loop answers 0 policies [] []))%list
         self).
Proof.
  unfold _evaluate_policies.
  rewrite (policies_loop_from_empty answers policies 0 [] (policy_recommendations self)).
  reflexivity.
Qed.

Lemma _evaluate_tools_effect (answers : nat -> bool * bool) (self : Session R)
    (p : EnvironmentProfile.t) :
  profile self = Some p ->
  _evaluate_tools answers self
  = set_tool_score
      (match fst (tools_loop answers 0 (EnvironmentProfile.security_tools p) [] []) with
       | [] => num_lit 0.0
       | _ => (sum (fst (tools_loop answers 0 (EnvironmentProfile.security_tools p) [] []))
               / len (fst (tools_loop answers 0
                             (EnvironmentProfile.security_tools p) [] [])))%num
       end)
      (set_policy_recommendations
         (policy_recommendations self
            ++ snd (tools_loop answers 0 (EnvironmentProfile.security_tools p) [] []))%list
         self).
Proof.
  intros Hp. unfold _evaluate_tools. rewrite Hp.
  rewrite (tools_loop_from_empty answers (EnvironmentProfile.security_tools p) 0 []
             (policy_recommendations self)).
  reflexivity.
Qed.

Lemma _identify_bottlenecks_effect (answers : nat -> bool) (self : Session R) :
  _identify_bottlenecks answers self
  = set_bottlenecks
      (bottlenecks self ++ fst (bottlenecks_loop answers 0 potential_bottlenecks [] []))%list
      (set_policy_recommendations
         (policy_recommendations self
            ++ snd (bottlenecks_loop answers 0 potential_bottlenecks [] []))%list
         self).
Proof.
  unfold _identify_bottlenecks.
  rewrite (bottlenecks_loop_from_empty answers potential_bottlenecks 0 (bottlenecks self)
             (policy_recommendations self)).
  reflexivity.
Qed.

(** X11: at every carrier, [evaluate_readiness] overwrites the policy and tool
    scores, which afterwards depend on the answers and the profile alone, and
    appends to the recommendations and bottlenecks recorded by earlier calls
    without dropping any; the other modules' results are untouched. *)
Theorem evaluate_readiness_accumulates (policy_answers : nat -> PolicyAnswer)
    (tool_answers : nat -> bool * bool) (bottleneck_answers : nat -> bool)
    (self : Session R) :
  let self' := evaluate_readiness policy_answers tool_answers bottleneck_answers self in
  (forall other : Session R,
      profile other = profile self ->
      let other' :=
        evaluate_readiness policy_answers tool_answers bottleneck_answers other in
      policy_score other' = policy_score self' /\ tool_score other' = tool_score self') /\
  (exists recommendations,
      policy_recommendations self'
      = (policy_recommendations self ++ recommendations)%list) /\
  (exists found, bottlenecks self' = (bottlenecks self ++ found)%list) /\
  profile self' = profile self /\
  log_results self' = log_results self /\
  playbook_results self' = playbook_results self /\
  scenarios self' = scenarios self /\
  assessment self' = assessment self.
Proof.
  intros self'. subst self'.
  assert (shape : forall s : Session R,
             let s' := evaluate_readiness policy_answers tool_answers bottleneck_answers s in
             policy_score s'
             = policy_score (_evaluate_policies policy_answers s) /\
             tool_score s'
             = match profile s with
               | Some p =>
                   match fst (tools_loop tool_answers 0
                                (EnvironmentProfile.security_tools p) [] []) with
                   | [] => num_lit 0.0
                   | _ => (sum (fst (tools_loop tool_answers 0
                                       (EnvironmentProfile.security_tools p) [] []))
                           / len (fst (tools_loop tool_answers 0
                                         (EnvironmentProfile.security_tools p) [] [])))%num
                   end
               | None => num_lit 0.0
               end /\
             (exists recommendations,
                 policy_recommendations s'
                 = (policy_recommendations s ++ recommendations)%list) /\
             (exists found, bottlenecks s' = (bottlenecks s ++ found)%list) /\
             profile s' = profile s /\ log_results s' = log_results s /\
             playbook_results s' = playbook_results s /\
             scenarios s' = scenarios s /\ assessment s' = assessment s).
  { intros s s'. subst s'. unfold evaluate_readiness. cbv zeta.
    rewrite _identify_bottlenecks_effect.
    assert (Hp : profile (_evaluate_policies policy_answers s) = profile s)
      by (rewrite _evaluate_policies_effect; reflexivity).
    destruct (profile s) as [p |] eqn:Ep.
    - rewrite (_evaluate_tools_effect tool_answers _ p Hp).
      rewrite _evaluate_policies_effect.
      cbn [policy_score tool_score policy_recommendations bottlenecks profile log_results
           playbook_results scenarios assessment set_bottlenecks
           set_policy_recommendations set_tool_score set_policy_score].
      split; [reflexivity |]. split; [reflexivity |].
      split; [eexists; rewrite <- !app_assoc; reflexivity |].
      split; [eexists; reflexivity |].
      repeat split. exact Ep.
    - unfold _evaluate_tools. rewrite Hp.
      rewrite _evaluate_policies_effect.
      cbn [policy_score tool_score policy_recommendations bottlenecks profile log_results
           playbook_results scenarios assessment set_bottlenecks
           set_policy_recommendations set_tool_score set_policy_score].
      split; [reflexivity |]. split; [reflexivity |].
      split; [eexists; rewrite <- !app_assoc; reflexivity |].
      split; [eexists; reflexivity |].
      repeat split. exact Ep. }
  destruct (shape self) as (Hps & Hts & Hr & Hb & Hrest).
  split; [| split; [exact Hr | split; [exact Hb | exact Hrest]]].
  intros other Ho other'. subst other'.
  destruct (shape other) as (Hpo & Hto & _).
  rewrite Hps, Hts, Hpo, Hto, Ho.
  rewrite !_evaluate_policies_effect. split; reflexivity.
Qed.

End Accumulation.

Lemma evaluate_readiness_accumulates_witness :
  policy_score
    (evaluate_readiness (fun _ => policy_exists true false) (fun _ => (true, true))
       (fun _ => false) (@session_before_report Q _))
  = policy_score
      (evaluate_readiness (fun _ => policy_exists true false) (fun _ => (true, true))
         (fun _ => false) (@session_with_logs Q _)).
Proof.
  destruct (evaluate_readiness_accumulates
              (fun _ => policy_exists true false) (fun _ => (true, true))
              (fun _ => false) (@session_with_logs Q _)) as (H & _).
  destruct (H session_before_report eq_refl) as (Hp & _).
  exact Hp.
Defined.

(** * The tool score of a profile with tools *)





(** * The cap of the recommendation list *)

Section Recommendations.

Context {R : Type} {N : Number R}.

(** X13: at every carrier and for every session, the list that
    [_generate_recommendations] returns has between 3 and 14 entries and ends
    with the three general recommendations: the cut at 15 never removes an
    entry. *)
Theorem recommendations_never_cut (self : Session R) :
  let l := _generate_recommendations self in
  (3 <= length l <= 14)%nat /\
  skipn (length l - 3) l
  = ["Establish 24/7 SOC coverage or engage MDR provider";
     "Conduct annual incident response capability assessment";
     "Develop incident response metrics and KPIs"].
Proof.
  unfold _generate_recommendations.
  destruct (profile self) as [p |]; destruct (assessment self) as [a |];
    case_ifs; unfold append; cbn [app firstn length skipn Nat.sub];
    (split; [lia | reflexivity]).
Qed.

(** * The gap lists *)

Lemma fold_left_append {A : Type} (step : list string -> A -> list string)
    (entry : A -> list string) :
  (forall acc x, step acc x = (acc ++ entry x)%list) ->
  forall l acc, fold_left step l acc = (acc ++ flat_map entry l)%list.
Proof.
  intros Hstep. induction l as [| x l IH]; intros acc; cbn [fold_left flat_map].
  - rewrite app_nil_r. reflexivity.
  - rewrite IH, Hstep, <- app_assoc. reflexivity.
Qed.

(** X14: at every carrier and for every session, [_prioritize_gaps] returns: as
    critical gaps, in this order, the evidence gap, the playbook gap and the
    policy gap, each when its score is below 0.60; as high-priority gaps one
    entry per log result that is not retention compliant, then one per playbook
    result with an unrealistic assumption, then the tool gap when the tool
    score is below 0.70, then the scenario gap when scenarios were run and
    their mean readiness is below 0.65; as medium gaps the recorded
    bottlenecks, unchanged. *)
Theorem prioritized_gaps (self : Session R) :
  _prioritize_gaps self
  = (((if (get_evidence_availability_score self <? num_lit 0.60)%num
       then ["Insufficient log coverage for effective incident investigation"] else [])
      ++ (if (get_playbook_effectiveness_score self <? num_lit 0.60)%num
          then ["Incident response playbooks lack clarity or completeness"] else [])
      ++ (if (policy_score self <? num_lit 0.60)%num
          then ["Security policies inadequate for effective incident response"]
          else []))%list,
     (flat_map (fun r => if LogAnalysisResult.retention_compliance r then []
                         else [(LogAnalysisResult.source_name r
                                  ++ ": Inadequate retention period")%string])
               (log_results self)
      ++ flat_map (fun r => match PlaybookAnalysisResult.unrealistic_assumptions r with
                            | [] => []
                            | _ => [(PlaybookAnalysisResult.playbook_name r
                                       ++ ": Contains unrealistic assumptions")%string]
                            end)
                  (playbook_results self)
      ++ (if (tool_score self <? num_lit 0.70)%num
          then ["Security tools not fully integrated into response workflow"] else [])
      ++ (match scenarios self with
          | [] => []
          | _ => if (sum (map ScenarioResult.readiness_score (scenarios self))
                     / len (scenarios self) <? num_lit 0.65)%num
                 then ["Limited readiness for common incident scenarios"] else []
          end))%list,
     bottlenecks self).
Proof.
  unfold _prioritize_gaps. cbv zeta.
  rewrite (fold_left_append
             (fun high_gaps result =>
                if negb (LogAnalysisResult.retention_compliance result)
                then append high_gaps
                       (LogAnalysisResult.source_name result
                          ++ ": Inadequate retention period")
                else high_gaps)
             (fun r => if LogAnalysisResult.retention_compliance r then []
                       else [LogAnalysisResult.source_name r
                               ++ ": Inadequate retention period"]));
    [| intros acc x; destruct (LogAnalysisResult.retention_compliance x);
       cbn [negb]; [rewrite app_nil_r |]; reflexivity].
  rewrite (fold_left_append
             (fun high_gaps result =>
                match PlaybookAnalysisResult.unrealistic_assumptions result with
                | [] => high_gaps
                | _ => append high_gaps
                         (PlaybookAnalysisResult.playbook_name result
                            ++ ": Contains unrealistic assumptions")
                end)
             (fun r => match PlaybookAnalysisResult.unrealistic_assumptions r with
                       | [] => []
                       | _ => [PlaybookAnalysisResult.playbook_name r
                                 ++ ": Contains unrealistic assumptions"]
                       end));
    [| intros acc x; destruct (PlaybookAnalysisResult.unrealistic_assumptions x);
       [rewrite app_nil_r |]; reflexivity].
  rewrite (fold_left_append (fun medium_gaps bottleneck => append medium_gaps bottleneck)
             (fun b => [b])); [| reflexivity].
  f_equal; [f_equal |].
  - case_ifs; reflexivity.
  - cbn [app]. unfold append.
    destruct (scenarios self); case_ifs; rewrite <- ?app_assoc, ?app_nil_r; reflexivity.
  - cbn [app]. induction (bottlenecks self) as [| b bs IH]; [reflexivity |].
    cbn [flat_map app]. f_equal. exact IH.
Qed.

End Recommendations.

(** * Gaps and strengths of a scenario *)

Lemma filter_length_forallb {A : Type} (f : A -> bool) (l : list A) :
  length (filter f l) = length l <-> forallb f l = true.
Proof.
  induction l as [| x l IH]; cbn [filter forallb length]; [tauto |].
  pose proof (filter_length_le f l) as Hle.
  destruct (f x); cbn [andb length].
  - rewrite <- IH. split; [intros [= H] | intros H]; congruence.
  - split; [intros H; lia | discriminate].
Qed.

Lemma ratio_below_one (k n : nat) :
  (0 < n)%nat ->
  Qltb (inject_Z (Z.of_nat k) / inject_Z (Z.of_nat n)) 1.0 = true <-> (k < n)%nat.
Proof.
  intros Hn.
  assert (H0 : 0 < inject_Z (Z.of_nat n)).
  { change 0 with (inject_Z 0). rewrite <- Zlt_Qlt. lia. }
  rewrite Qltb_lt. split.
  - intros H. destruct (Nat.lt_ge_cases k n) as [Hlt | Hge]; [exact Hlt |].
    exfalso. apply (Qlt_not_le _ _ H).
    apply Qle_shift_div_l; [exact H0 |].
    assert (Hz : inject_Z (Z.of_nat n) <= inject_Z (Z.of_nat k))
      by (rewrite <- Zle_Qle; lia).
    lra.
  - intros Hlt. apply Qlt_shift_div_r; [exact H0 |].
    assert (Hz : inject_Z (Z.of_nat k) < inject_Z (Z.of_nat n))
      by (rewrite <- Zlt_Qlt; lia).
    lra.
Qed.

Section ScenarioLists.

Context {R : Type} {N : Number R} {B : Builtins}.

(** X15: at every carrier, a scenario result is named and described after its
    scenario; its gaps and strengths are two entries in all, one verdict on
    the logs and one on the playbook; and the playbook verdict is the strength
    "Relevant playbook exists: ..." exactly when some evaluated playbook's name
    contains the required one, both as [lower] returns them, and the gap "No
    playbook for ..." otherwise. *)
Theorem scenario_gaps_and_strengths (self : Session R) (scenario : Scenario.t) :
  let r := _test_scenario self scenario in
  let required := Scenario.required_playbook scenario in
  ScenarioResult.name r = Scenario.name scenario /\
  ScenarioResult.description r = Scenario.description scenario /\
  (length (ScenarioResult.gaps r) + length (ScenarioResult.strengths r) = 2)%nat /\
  ScenarioResult.playbook_match r = has_playbook self scenario /\
  (In ("Relevant playbook exists: " ++ required) (ScenarioResult.strengths r)
   <-> has_playbook self scenario = true) /\
  (In ("No playbook for " ++ required) (ScenarioResult.gaps r)
   <-> has_playbook self scenario = false).
Proof.
  intros r required. subst r required. unfold _test_scenario, has_playbook. cbv zeta.
  destruct (any _ (map PlaybookAnalysisResult.playbook_name (playbook_results self)));
    cbn [negb andb];
    match goal with
    | |- context [if ?b then (append [] ?g, []) else ([], append [] ?s)] => destruct b
    end;
    cbn [ScenarioResult.name ScenarioResult.description ScenarioResult.gaps
         ScenarioResult.strengths ScenarioResult.playbook_match];
    unfold append; cbn [app length Nat.add];
    concrete_facts.
Qed.

End ScenarioLists.

(** * The log verdict and the readiness of a scenario *)

Lemma _test_scenario_fields {B : Builtins} (self : Session Q) (scenario : Scenario.t) :
  let r := _test_scenario self scenario in
  let la := ScenarioResult.log_availability r in
  let missing := filter (fun log => negb (covered self log))
                        (Scenario.required_logs scenario) in
  la = match Scenario.required_logs scenario with
       | [] => 0.0
       | _ => inject_Z (Z.of_nat (length (filter (covered self)
                                            (Scenario.required_logs scenario))))
              / inject_Z (Z.of_nat (length (Scenario.required_logs scenario)))
       end /\
  ScenarioResult.gaps r
  = ((if Qltb la 1.0
      then [("Missing critical logs: " ++ String.concat ", " missing)%string] else [])
     ++ (if has_playbook self scenario then []
         else [("No playbook for " ++ Scenario.required_playbook scenario)%string]))%list /\
  ScenarioResult.strengths r
  = ((if Qltb la 1.0 then [] else ["All required log sources available"])
     ++ (if has_playbook self scenario
         then [("Relevant playbook exists: "
                  ++ Scenario.required_playbook scenario)%string]
         else []))%list /\
  ScenarioResult.timeline_feasibility r
  = (if Qle_bool 0.8 la && has_playbook self scenario then 0.85
     else if Qle_bool 0.6 la then 0.65 else 0.40) /\
  ScenarioResult.readiness_score r
  = la * 0.4 + (if has_playbook self scenario then 1.0 else 0.0) * 0.3
    + ScenarioResult.timeline_feasibility r * 0.3.
Proof.
  unfold _test_scenario, has_playbook, covered, len. cbv zeta. q_ops.
  set (hp := any _ (map PlaybookAnalysisResult.playbook_name (playbook_results self))).
  set (la0 := match Scenario.required_logs scenario with [] => _ | _ :: _ => _ end).
  destruct (Qltb la0 1.0) eqn:E1; destruct hp;
    destruct (Qle_bool 0.8 la0) eqn:E8; destruct (Qle_bool 0.6 la0) eqn:E6;
    cbn [negb andb ScenarioResult.log_availability ScenarioResult.gaps
         ScenarioResult.strengths ScenarioResult.timeline_feasibility
         ScenarioResult.readiness_score];
    rewrite ?E1, ?E8, ?E6; cbn [andb]; repeat split.
Qed.

Lemma log_availability_below_one {B : Builtins} (self : Session Q) (scenario : Scenario.t) :
  Qltb (ScenarioResult.log_availability (_test_scenario self scenario)) 1.0 = true
  <-> Scenario.required_logs scenario = []
      \/ forallb (covered self) (Scenario.required_logs scenario) = false.
Proof.
  destruct (_test_scenario_fields self scenario) as (-> & _).
  destruct (Scenario.required_logs scenario) as [| log logs] eqn:E.
  - split; [intros _; left; reflexivity | intros _; reflexivity].
  - rewrite ratio_below_one by (cbn [length]; lia).
    pose proof (filter_length_le (covered self) (log :: logs)) as Hle.
    pose proof (filter_length_forallb (covered self) (log :: logs)) as Hall.
    destruct (forallb (covered self) (log :: logs)).
    + split; [intros H | intros [H | H]; discriminate H].
      exfalso. assert (Heq : length (filter (covered self) (log :: logs))
                             = length (log :: logs)) by (apply Hall; reflexivity).
      lia.
    + split; [intros _; right; reflexivity | intros _].
      destruct (Nat.eq_dec (length (filter (covered self) (log :: logs)))
                           (length (log :: logs))) as [Heq | Hne].
      * apply Hall in Heq. discriminate Heq.
      * lia.
Qed.

(** X16: over the rationals, the strength "All required log sources available"
    is recorded exactly when the scenario requires at least one log and every
    required log is covered by an available log source; otherwise the gap
    "Missing critical logs: ..." names the required logs that are not covered,
    and names none when the scenario requires no log at all. *)
Theorem scenario_log_verdict {B : Builtins} (self : Session Q) (scenario : Scenario.t) :
  let r := _test_scenario self scenario in
  let required := Scenario.required_logs scenario in
  let missing := filter (fun log => negb (covered self log)) required in
  let all_covered := forallb (covered self) required in
  (In "All required log sources available" (ScenarioResult.strengths r)
   <-> required <> [] /\ all_covered = true) /\
  (In ("Missing critical logs: " ++ String.concat ", " missing) (ScenarioResult.gaps r)
   <-> required = [] \/ all_covered = false) /\
  (required = [] -> In "Missing critical logs: " (ScenarioResult.gaps r)).
Proof.
  intros r required missing all_covered. subst r required missing all_covered.
  destruct (_test_scenario_fields self scenario) as (_ & Hg & Hs & _).
  cbv zeta in Hg, Hs. rewrite Hg, Hs.
  pose proof (log_availability_below_one self scenario) as Hlt.
  destruct (Qltb (ScenarioResult.log_availability (_test_scenario self scenario)) 1.0).
  - assert (Hcase : Scenario.required_logs scenario = []
                    \/ forallb (covered self) (Scenario.required_logs scenario) = false)
      by (apply Hlt; reflexivity).
    split; [| split].
    + split.
      * destruct (has_playbook self scenario); cbn [app In]; intros H;
          exfalso; concrete_facts.
      * intros [Hne Hall]. destruct Hcase as [Hc | Hc]; congruence.
    + split; [intros _; exact Hcase | intros _; left; reflexivity].
    + intros He. rewrite He. left. reflexivity.
  - assert (Hcase : ~ (Scenario.required_logs scenario = []
                       \/ forallb (covered self) (Scenario.required_logs scenario) = false))
      by (intros H; apply Hlt in H; discriminate H).
    split; [| split].
    + split; [intros _ | intros _; left; reflexivity].
      split; [intros He; apply Hcase; left; exact He |].
      destruct (forallb (covered self) (Scenario.required_logs scenario));
        [reflexivity | exfalso; apply Hcase; right; reflexivity].
    + split; [| intros H; contradiction].
      destruct (has_playbook self scenario); cbn [app In]; intros H;
        exfalso; concrete_facts.
    + intros He. exfalso. apply Hcase. left. exact He.
Qed.

Lemma scenario_log_verdict_witness :
  In "Missing critical logs: "
     (ScenarioResult.gaps
        (@_test_scenario Q _ ascii_builtins session_before_report scenario_without_logs)).
Proof.
  destruct (scenario_log_verdict (B := ascii_builtins) session_before_report
              scenario_without_logs)
    as (_ & _ & H).
  exact (H eq_refl).
Defined.

(** X17: over the rationals, the readiness score of a scenario result lies in
    [[0.12, 0.955]]; it is 0.955 when the result has no gap; and the timeline
    feasibility is one of 0.85, 0.65 and 0.40, and is 0.85 only with a matching
    playbook and a log availability of at least 0.8. *)
Theorem scenario_readiness_range {B : Builtins} (self : Session Q) (scenario : Scenario.t) :
  let r := _test_scenario self scenario in
  (0.12 <= ScenarioResult.readiness_score r <= 0.955) /\
  (ScenarioResult.gaps r = [] -> ScenarioResult.readiness_score r == 0.955) /\
  (ScenarioResult.timeline_feasibility r = 0.85
   \/ ScenarioResult.timeline_feasibility r = 0.65
   \/ ScenarioResult.timeline_feasibility r = 0.40) /\
  (ScenarioResult.timeline_feasibility r = 0.85 ->
   ScenarioResult.playbook_match r = true /\ 0.8 <= ScenarioResult.log_availability r).
Proof.
  intros r. subst r.
  assert (Hs : scenario_scored (_test_scenario self scenario))
    by (exists self, scenario; reflexivity).
  destruct (scenario_scored_bounds _ Hs) as (_ & [Hla0 Hla1] & _).
  destruct (_test_scenario_fields self scenario) as (_ & Hg & _ & Ht & Hr).
  cbv zeta in Hg, Ht, Hr.
  assert (Hm : ScenarioResult.playbook_match (_test_scenario self scenario)
               = has_playbook self scenario).
  { unfold _test_scenario, has_playbook. cbv zeta. case_ifs; reflexivity. }
  rewrite Hr, Hg, Ht, Hm.
  set (la := ScenarioResult.log_availability (_test_scenario self scenario)) in *.
  clearbody la.
  destruct (Qltb la 1.0) eqn:E1;
    [apply Qltb_lt in E1 | apply Qltb_ge in E1];
    (destruct (Qle_bool 0.8 la) eqn:E8;
     [apply Qle_bool_iff in E8 | apply Qle_bool_false in E8]);
    (destruct (Qle_bool 0.6 la) eqn:E6;
     [apply Qle_bool_iff in E6 | apply Qle_bool_false in E6]);
    destruct (has_playbook self scenario); cbn [andb app];
    (split; [lra |]);
    (split; [intros H; try discriminate H; lra |]);
    (split; [auto |]);
    intros H; try discriminate H; try (split; [reflexivity | exact E8]);
    exfalso; lra.
Qed.

(** * The selection of scenarios *)

Section ScenarioSelection.

Context {R : Type} {N : Number R} {B : Builtins}.

Lemma _test_scenario_name (self : Session R) (scenario : Scenario.t) :
  ScenarioResult.name (_test_scenario self scenario) = Scenario.name scenario.
Proof.
  unfold _test_scenario. cbv zeta. case_ifs; reflexivity.
Qed.

(** X18: at every carrier, [run_scenario_testing] changes nothing when the
    operator declines; with [all] it appends the results of the three
    predefined scenarios; with typed numbers it appends one result per number
    from 1 to 3, in the order typed and as often as typed, and ignores every
    other number.  Results of earlier runs are kept. *)
Theorem scenario_selection (self : Session R) :
  (forall selected, run_scenario_testing false selected self = self) /\
  map ScenarioResult.name (scenarios (run_scenario_testing true None self))
  = (map ScenarioResult.name (scenarios self)
       ++ ["Ransomware Attack"; "Credential Compromise"; "Data Exfiltration"])%list /\
  (forall indices,
      map ScenarioResult.name (scenarios (run_scenario_testing true (Some indices) self))
      = (map ScenarioResult.name (scenarios self)
           ++ map (fun i => nth (Z.to_nat i)
                                ["Ransomware Attack"; "Credential Compromise";
                                 "Data Exfiltration"] EmptyString)
                  (filter (fun i => (0 <=? i)%Z && (i <? 3)%Z) indices))%list).
Proof.
  split; [reflexivity |]. split.
  - unfold run_scenario_testing. cbn [negb scenarios set_scenarios].
    rewrite map_app, map_map. f_equal.
    unfold predefined_scenarios. cbn [map]. rewrite !_test_scenario_name. reflexivity.
  - intros indices. unfold run_scenario_testing. cbn [negb scenarios set_scenarios].
    rewrite map_app, map_map. f_equal.
    induction indices as [| i indices IH]; [reflexivity |].
    cbn [select_scenarios flat_map filter] in *.
    change (Z.of_nat (length predefined_scenarios)) with 3%Z.
    destruct ((0 <=? i)%Z && (i <? 3)%Z) eqn:E.
    + apply andb_true_iff in E. destruct E as [E0 E3].
      apply Z.leb_le in E0. apply Z.ltb_lt in E3.
      assert (Hi : i = 0%Z \/ i = 1%Z \/ i = 2%Z) by lia.
      cbn [map]. rewrite map_app, <- IH.
      destruct Hi as [-> | [-> | ->]];
        [ change (Z.to_nat 0) with 0%nat
        | change (Z.to_nat 1) with 1%nat
        | change (Z.to_nat 2) with 2%nat ];
        cbn -[_test_scenario]; rewrite _test_scenario_name; reflexivity.
    + cbn [app]. exact IH.
Qed.

End ScenarioSelection.

(** * The reports of the application *)

Lemma collect_typed_step {B : Builtins} (op : Operator.t) (s s' : Session Q) :
  collect_typed op s = Some s' ->
  reachable s -> reachable s' /\
  (forall p, profile s' = Some p -> EnvironmentProfile.log_sources p <> []) /\
  log_results s' = log_results s /\ playbook_results s' = playbook_results s /\
  assessment s' = assessment s /\ profile s' <> None.
Proof.
  unfold collect_typed. intros H Hr.
  destruct (typed_profile op) as [p |] eqn:Hp; [| discriminate H].
  destruct (proj2 (typed_profile_shape op) p Hp) as (_ & _ & _ & _ & Hls & _).
  injection H as <-.
  split; [eapply reachable_step; [exact Hr | apply step_collect_environment_data] |].
  unfold collect_environment_data. cbn.
  repeat split; try discriminate. intros p' [= <-]. exact Hls.
Qed.

Lemma evaluate_readiness_frame (pa : nat -> PolicyAnswer) (ta : nat -> bool * bool)
    (ba : nat -> bool) (s : Session Q) :
  let s' := evaluate_readiness pa ta ba s in
  profile s' = profile s /\ log_results s' = log_results s /\
  playbook_results s' = playbook_results s /\ assessment s' = assessment s.
Proof.
  unfold evaluate_readiness. cbv zeta.
  destruct (_evaluate_policies_frame pa s) as (P1 & L1 & B1 & _ & _ & A1).
  destruct (_evaluate_tools_frame ta (_evaluate_policies pa s))
    as (P2 & L2 & B2 & _ & _ & A2).
  destruct (_identify_bottlenecks_frame ba (_evaluate_tools ta (_evaluate_policies pa s)))
    as (P3 & L3 & B3 & _ & _ & _ & A3).
  cbv zeta in *.
  rewrite P3, L3, B3, A3, P2, L2, B2, A2, P1, L1, B1, A1. repeat split.
Qed.

Lemma run_scenario_testing_frame {B : Builtins} (run : bool) (selected : option (list Z))
    (s : Session Q) :
  let s' := run_scenario_testing run selected s in
  profile s' = profile s /\ log_results s' = log_results s /\
  playbook_results s' = playbook_results s /\ assessment s' = assessment s.
Proof.
  unfold run_scenario_testing. destruct run; cbn; repeat split.
Qed.

(** The report that follows a new assessment module. *)
Lemma report_after_new_module {B : Builtins} (now : string) (s : Session Q) :
  reachable s -> log_results s <> [] ->
  application_report (fst (generate_assessment now (new_AssessmentModule s))).
Proof.
  intros Hr Hne.
  assert (Hr' : reachable (new_AssessmentModule s))
    by (eapply reachable_step; [exact Hr | apply step_new_AssessmentModule]).
  pose proof (reachable_invariant _ Hr') as Inv.
  pose proof Inv as (Hl & _).
  assert (Hne' : log_results (new_AssessmentModule s) <> []) by exact Hne.
  destruct (generate_assessment_fields now (new_AssessmentModule s))
    as (He & _ & _ & _ & _ & Hc & Hrec & _).
  destruct (assessment_ceiling _ Inv now) as (_ & _ & _ & _ & Hlevel).
  unfold application_report. rewrite He, Hc, Hrec.
  split; [| split; [| split]].
  - apply timeline_recommendations_follow_stored_assessment. exact I.
  - intros Hin. apply Hne'. exact (critical_gap_needs_no_logs _ Hl Hin).
  - destruct (evidence_bounds _ Hl Hne') as [Hlo Hhi]. split; lra.
  - exact Hlevel.
Qed.

Lemma ensure_scenario_frame {B : Builtins} (app : IRRApplication Q) :
  reachable (modules app) ->
  reachable (ensure_scenario app) /\
  profile (ensure_scenario app) = profile (modules app) /\
  log_results (ensure_scenario app) = log_results (modules app) /\
  assessment (ensure_scenario app) = assessment (modules app).
Proof.
  intros Hr. unfold ensure_scenario. destruct (scenario_module app).
  - repeat split. exact Hr.
  - split; [eapply reachable_step; [exact Hr | apply step_new_ScenarioModule] |].
    cbn. repeat split.
Qed.

Lemma generate_report_invariant {B : Builtins} (now : string) (s : Session Q) (flag : bool) :
  reachable s -> log_results s <> [] ->
  (forall p, profile s = Some p -> EnvironmentProfile.log_sources p <> []) ->
  application_invariant
    (mkApp Q (snd (generate_assessment now (new_AssessmentModule s))) flag).
Proof.
  intros Hr Hne Hp.
  destruct (generate_assessment_fields now (new_AssessmentModule s))
    as (_ & _ & _ & _ & _ & _ & _ & Hs).
  unfold application_invariant. cbn [modules].
  split; [| split].
  - eapply reachable_step; [| apply step_generate_assessment].
    eapply reachable_step; [exact Hr | apply step_new_AssessmentModule].
  - rewrite Hs. exact Hp.
  - rewrite Hs. cbn [assessment set_assessment]. intros a [= <-].
    apply report_after_new_module; assumption.
Qed.

Lemma run_full_assessment_invariant {B : Builtins} (op : Operator.t) (app app' : IRRApplication Q) :
  application_invariant app -> run_full_assessment op app = Some app' ->
  application_invariant app'.
Proof.
  intros (Hr & Hp & Ha) Hrun. unfold run_full_assessment in Hrun.
  assert (Hstart : exists s p,
             match profile (modules app) with
             | None => collect_typed op (modules app)
             | Some _ => Some (modules app)
             end = Some s /\
             reachable s /\ profile s = Some p /\ EnvironmentProfile.log_sources p <> []).
  { destruct (profile (modules app)) as [p |] eqn:E.
    - exists (modules app), p. repeat split; auto.
    - destruct (collect_typed op (modules app)) as [s |] eqn:Ec; [| discriminate Hrun].
      destruct (collect_typed_step op _ s Ec Hr) as (Hrs & Hps & _ & _ & _ & Hsome).
      destruct (profile s) as [p |] eqn:Es; [| congruence].
      exists s, p. repeat split; auto. }
  destruct Hstart as (s & p & Estart & Hrs & Eps & Hls).
  rewrite Estart in Hrun. injection Hrun as <-.
  set (s1 := analyze_logs s).
  set (s2 := evaluate_playbooks (Operator.standard op) (Operator.custom op) s1).
  set (s3 := evaluate_readiness (Operator.policy_answers op) (Operator.tool_answers op)
               (Operator.bottleneck_answers op) s2).
  set (s4 := new_ScenarioModule s3).
  set (s5 := run_scenario_testing (Operator.run_scenarios op) (Operator.selected op) s4).
  assert (H1 : reachable s1 /\ profile s1 = Some p /\ log_results s1 <> []).
  { split; [eapply reachable_step; [exact Hrs | apply step_analyze_logs] |].
    subst s1. unfold analyze_logs. rewrite Eps. cbn [profile log_results set_log_results].
    split; [exact Eps |]. intros H. apply map_eq_nil in H. exact (Hls H). }
  destruct H1 as (R1 & P1 & L1).
  assert (H2 : reachable s2 /\ profile s2 = Some p /\ log_results s2 <> []).
  { split; [eapply reachable_step; [exact R1 | apply step_evaluate_playbooks] |].
    subst s2. unfold evaluate_playbooks. cbn [profile log_results set_playbook_results].
    split; assumption. }
  destruct H2 as (R2 & P2 & L2).
  assert (H3 : reachable s3 /\ profile s3 = Some p /\ log_results s3 <> []).
  { split; [eapply reachable_step; [exact R2 | apply step_evaluate_readiness] |].
    destruct (evaluate_readiness_frame (Operator.policy_answers op)
                (Operator.tool_answers op) (Operator.bottleneck_answers op) s2)
      as (P & L & _). fold s3 in P, L. rewrite P, L. split; assumption. }
  destruct H3 as (R3 & P3 & L3).
  assert (H4 : reachable s4 /\ profile s4 = Some p /\ log_results s4 <> []).
  { split; [eapply reachable_step; [exact R3 | apply step_new_ScenarioModule] |].
    subst s4. unfold new_ScenarioModule. cbn [profile log_results set_scenarios].
    split; assumption. }
  destruct H4 as (R4 & P4 & L4).
  assert (H5 : reachable s5 /\ profile s5 = Some p /\ log_results s5 <> []).
  { split; [eapply reachable_step; [exact R4 | apply step_run_scenario_testing] |].
    destruct (run_scenario_testing_frame (Operator.run_scenarios op)
                (Operator.selected op) s4) as (P & L & _).
    fold s5 in P, L. rewrite P, L. split; assumption. }
  destruct H5 as (R5 & P5 & L5).
  apply generate_report_invariant; [exact R5 | exact L5 |].
  intros p' Hp'. rewrite P5 in Hp'. injection Hp' as <-. exact Hls.
Qed.

Lemma run_individual_module_invariant {B : Builtins} (choice : Z) (op : Operator.t)
    (app app' : IRRApplication Q) :
  application_invariant app -> run_individual_module choice op app = Some app' ->
  application_invariant app'.
Proof.
  intros Inv Hrun. pose proof Inv as (Hr & Hp & Ha).
  unfold run_individual_module in Hrun. cbv zeta in Hrun.
  destruct (choice =? 2)%Z.
  { destruct (profile (modules app)) as [p |] eqn:E.
    - injection Hrun as <-. exact Inv.
    - destruct (collect_typed op (modules app)) as [s |] eqn:Ec; [| discriminate Hrun].
      injection Hrun as <-.
      destruct (collect_typed_step op _ s Ec Hr) as (Hrs & Hps & _ & _ & Has & _).
      unfold application_invariant. cbn [modules]. rewrite Has. auto. }
  destruct (choice =? 3)%Z.
  { unfold require_profile in Hrun.
    destruct (profile (modules app)) as [p |] eqn:E.
    - injection Hrun as <-. unfold application_invariant. cbn [modules].
      split; [eapply reachable_step; [exact Hr | apply step_analyze_logs] |].
      unfold analyze_logs. rewrite E. cbn [profile assessment set_log_results].
      rewrite E. auto.
    - destruct (Operator.collect_now op); [| injection Hrun as <-; exact Inv].
      destruct (collect_typed op (modules app)) as [s |] eqn:Ec; [| discriminate Hrun].
      injection Hrun as <-.
      destruct (collect_typed_step op _ s Ec Hr) as (Hrs & Hps & _ & _ & Has & _).
      unfold application_invariant. cbn [modules].
      split; [eapply reachable_step; [exact Hrs | apply step_analyze_logs] |].
      unfold analyze_logs. destruct (profile s) as [p |] eqn:Es.
      + cbn [profile assessment set_log_results]. rewrite Es, Has. auto.
      + rewrite Es, Has. auto. }
  destruct (choice =? 4)%Z.
  { injection Hrun as <-. unfold application_invariant. cbn [modules].
    split; [eapply reachable_step; [exact Hr | apply step_evaluate_playbooks] |].
    unfold evaluate_playbooks. cbn [profile assessment set_playbook_results]. auto. }
  destruct (choice =? 5)%Z.
  { unfold require_profile in Hrun.
    destruct (profile (modules app)) as [p |] eqn:E.
    - injection Hrun as <-. unfold application_invariant. cbn [modules].
      split; [eapply reachable_step; [exact Hr | apply step_evaluate_readiness] |].
      destruct (evaluate_readiness_frame (Operator.policy_answers op)
                  (Operator.tool_answers op) (Operator.bottleneck_answers op)
                  (modules app)) as (P & _ & _ & A).
      cbv zeta in P, A. rewrite P, A. exact (proj2 Inv).
    - destruct (Operator.collect_now op); [| injection Hrun as <-; exact Inv].
      destruct (collect_typed op (modules app)) as [s |] eqn:Ec; [| discriminate Hrun].
      injection Hrun as <-.
      destruct (collect_typed_step op _ s Ec Hr) as (Hrs & Hps & _ & _ & Has & _).
      unfold application_invariant. cbn [modules].
      split; [eapply reachable_step; [exact Hrs | apply step_evaluate_readiness] |].
      destruct (evaluate_readiness_frame (Operator.policy_answers op)
                  (Operator.tool_answers op) (Operator.bottleneck_answers op) s)
        as (P & _ & _ & A).
      cbv zeta in P, A. rewrite P, A, Has. auto. }
  destruct (ensure_scenario_frame app Hr) as (Re & Pe & Le & Ae).
  destruct (choice =? 6)%Z.
  { destruct (log_results (modules app)) as [| r rs] eqn:El;
      [injection Hrun as <-; exact Inv |].
    destruct (playbook_results (modules app)) as [| b bs] eqn:Eb;
      [injection Hrun as <-; exact Inv |].
    injection Hrun as <-. unfold application_invariant. cbn [modules].
    split; [eapply reachable_step; [exact Re | apply step_run_scenario_testing] |].
    destruct (run_scenario_testing_frame (Operator.run_scenarios op)
                (Operator.selected op) (ensure_scenario app)) as (P & _ & _ & A).
    cbv zeta in P, A. rewrite P, A, Pe, Ae. auto. }
  destruct (choice =? 7)%Z.
  { destruct (log_results (modules app)) as [| r rs] eqn:El;
      [injection Hrun as <-; exact Inv |].
    destruct (playbook_results (modules app)) as [| b bs] eqn:Eb;
      [injection Hrun as <-; exact Inv |].
    injection Hrun as <-.
    apply generate_report_invariant; [exact Re | rewrite Le; discriminate |].
    rewrite Pe. exact Hp. }
  injection Hrun as <-. exact Inv.
Qed.

Lemma app_reachable_invariant {B : Builtins} (app : IRRApplication Q) :
  app_reachable app -> application_invariant app.
Proof.
  induction 1 as [| app choice op app' _ IH _ Hrun].
  - unfold application_invariant, initial_application. cbn [modules].
    split; [apply reachable_initial |]. split; intros x H; discriminate H.
  - unfold run_choice in Hrun. destruct (choice =? 1)%Z.
    + exact (run_full_assessment_invariant op app app' IH Hrun).
    + exact (run_individual_module_invariant choice op app app' IH Hrun).
Qed.

(** X19: over the rationals, every assessment that the application holds after
    any number of rounds of its menu, with whatever the operator answers,
    carries both timeline recommendations, whatever its timeline score; it
    never reports the critical gap "Insufficient log coverage ..." and its
    evidence score lies between 0.73 and 0.81, because a report is only
    generated over at least one analysed log source; and its readiness level
    is never Excellent. *)
Theorem application_reports {B : Builtins} (app : IRRApplication Q) :
  app_reachable app ->
  forall a,
    assessment (modules app) = Some a ->
    incl timeline_recommendations (ReadinessAssessment.recommendations a) /\
    ~ In insufficient_log_coverage (ReadinessAssessment.critical_gaps a) /\
    0.73 <= ReadinessAssessment.evidence_availability a <= 0.81 /\
    ReadinessAssessment.readiness_level a <> "Excellent".
Proof.
  intros Hr a Ha. destruct (app_reachable_invariant app Hr) as (_ & _ & H).
  exact (H a Ha).
Qed.

Lemma application_reports_witness :
  match assessment (modules application_after_defaults) with
  | Some a => incl timeline_recommendations (ReadinessAssessment.recommendations a)
  | None => False
  end.
Proof.
  assert (Hrun : run_choice (B := ascii_builtins) 1 operator_of_defaults
                   initial_application
                 = Some application_after_defaults) by (vm_compute; reflexivity).
  assert (Hr : app_reachable (B := ascii_builtins) application_after_defaults).
  { eapply app_reachable_round; [apply app_reachable_initial | | exact Hrun].
    discriminate. }
  destruct (assessment (modules application_after_defaults)) as [a |] eqn:E.
  - destruct (application_reports (B := ascii_builtins) application_after_defaults
                Hr a E) as (H & _).
    exact H.
  - vm_compute in E. discriminate E.
Defined.
